(** * pprofio agent: configuration, upload pipeline, metadata dispatch,
      profiler lifecycle and span aggregation

    A shallow embedding of the Go package [pprofio]: config.go, storage.go,
    metadata.go, pprofio.go and the two sources that hold the [Profiler]
    type and the custom spans.  Go values are kept as
    the code has them: [int] and [time.Duration] are 64-bit integers carried
    in [Z] with the wrap-around written out, [map[string]string] is a
    [gmap string string], errors are first-order values that remember what
    they wrap, and every effect of a function (a sleep, a request, a line on
    stdout) is appended to the trace the function returns. *)

From Stdlib Require Import ZArith String Ascii DecimalString Lia.
From stdpp Require Import gmap strings list fin_maps.

Open Scope string_scope.
Open Scope list_scope.

(** ** Go runtime values *)

(** [errors.New] and the three shapes of [fmt.Errorf] the package uses: with
    a [%d] verb, with a [%w] verb, and with both.  The operand of [%w] may be
    the nil error, which is [None]. *)
#[local] Set Warnings "-register-all".
Inductive error : Type :=
| errors_New (text : string)
| fmt_Errorf_d (format : string) (d : Z)
| fmt_Errorf_w (format : string) (err : option error)
| fmt_Errorf_dw (format : string) (d : Z) (err : option error).

(** [errors.Unwrap]: the operand of [%w], when there is one and it is not nil. *)
Definition Unwrap (e : error) : option error :=
  match e with
  | fmt_Errorf_w _ err | fmt_Errorf_dw _ _ err => err
  | _ => None
  end.

Definition itoa (n : Z) : string := NilZero.string_of_int (Z.to_int n).

(** The formatting of the two verbs, operands consumed left to right. *)
Fixpoint Sprintf (format : string) (d : option Z) (w : option string) : string :=
  match format with
  | EmptyString => EmptyString
  | String "%"%char (String "d"%char rest) =>
      String.append (match d with Some n => itoa n | None => "%!d(MISSING)" end)
                    (Sprintf rest None w)
  | String "%"%char (String "w"%char rest) =>
      String.append (match w with Some t => t | None => "%!w(MISSING)" end)
                    (Sprintf rest d None)
  | String c rest => String c (Sprintf rest d w)
  end.

(** The [Error()] method. *)
Fixpoint Error (e : error) : string :=
  let operand err :=
    match err with Some e' => Error e' | None => "%!w(<nil>)" end in
  match e with
  | errors_New text => text
  | fmt_Errorf_d format d => Sprintf format (Some d) None
  | fmt_Errorf_w format err => Sprintf format None (Some (operand err))
  | fmt_Errorf_dw format d err => Sprintf format (Some d) (Some (operand err))
  end.

(** What a Go function of type [(T, error)] hands back: the value with a nil
    error, the zero value with an error, or no return at all because the
    goroutine panicked. *)
Inductive result (T : Type) : Type :=
| Ok (v : T)
| Err (e : error)
| Panic (reason : string).
Arguments Ok {T} v.
Arguments Err {T} e.
Arguments Panic {T} reason.

(** Signed 64-bit arithmetic: Go wraps on overflow. *)
Definition wrap64 (z : Z) : Z := ((z + 2 ^ 63) mod 2 ^ 64 - 2 ^ 63)%Z.

(** [time.Duration] counts nanoseconds in an [int64]. *)
Definition Millisecond : Z := 1000000.
Definition Second : Z := 1000000000.

(** The effects the package performs, in the order it performs them. *)
Inductive event : Type :=
| Sleep (d : Z)                                   (* time.Sleep(d) *)
| Attempt (attempt : Z)                           (* one pass of a delivery loop *)
| SendMetadata (metadata : gmap string string)    (* handed to Profiler.sendMetadata *)
| PrintMetadata (metadata : gmap string string).  (* StdoutStorage.OutputMetadata *)

Definition trace := list event.

(** How many passes of a delivery loop a trace holds, and the sleeps in it. *)
Fixpoint attempts (t : trace) : nat :=
  match t with
  | [] => 0
  | Attempt _ :: t' => S (attempts t')
  | _ :: t' => attempts t'
  end.

Fixpoint sleeps (t : trace) : list Z :=
  match t with
  | [] => []
  | Sleep d :: t' => d :: sleeps t'
  | _ :: t' => sleeps t'
  end.

(** ** storage.go *)

(** What the network does with one pass of a delivery loop: the request
    cannot be built, the transport fails, or a response comes back with a
    status code and a body that [io.ReadAll] either reads or fails on. *)
Record Response : Type := {
  StatusCode : Z;
  Body : error + string
}.

Inductive roundTrip : Type :=
| NewRequestFails (err : error)
| DoFails (err : error)
| DoReturns (resp : Response).

(** The outcome of the k-th pass, counted from 0. *)
Definition network := nat -> roundTrip.

Record http_Client : Type := { Timeout : Z }.

Record HTTPStorage : Type := {
  URL : string;
  APIKey : string;
  Client : option http_Client;   (* a pointer: [None] is nil *)
  Retries : Z;
  Env : string
}.

Definition NewHTTPStorage (url apiKey env : string) : HTTPStorage :=
  {| URL := url;
     APIKey := apiKey;
     Client := Some {| Timeout := 30 * Second |};
     Retries := 3;
     Env := env |}.

(** [math.Pow(2, float64(attempt-1)) * 100]: a power of two times 100 is
    exact in a float64, so the value is carried as the integer it is. *)
Definition backoff (attempt : Z) : Z := (2 ^ (attempt - 1) * 100)%Z.

(** [time.Duration(backoff)]: the conversion truncates; out of the int64
    range Go leaves the result to the platform, and amd64 yields the
    smallest int64. *)
Definition float64_to_int64 (x : Z) : Z :=
  if (x <? 2 ^ 63)%Z then x else (- 2 ^ 63)%Z.

(** [time.Duration(backoff) * time.Millisecond] *)
Definition backoffDuration (attempt : Z) : Z :=
  wrap64 (float64_to_int64 (backoff attempt) * Millisecond).

(** [if attempt > 0 { ...; time.Sleep(...) }] *)
Definition slept (attempt : Z) : trace :=
  if (attempt >? 0)%Z then [Sleep (backoffDuration attempt)] else [].

(** The statuses after which the loop goes round again. *)
Definition retryable (code : Z) : bool :=
  (code =? 429)%Z || ((code >=? 500)%Z && (code <? 600)%Z).

(** The body of the [for attempt := 0; attempt < s.Retries; attempt++] loop.
    [remaining] counts the passes still allowed, so the pass in hand is
    number [attempt = s.Retries - remaining]. *)
Fixpoint uploadLoop (net : network) (s : HTTPStorage) (remaining : nat)
    (attempt : Z) (lastErr : option error) : result string * trace :=
  match remaining with
  | O => (Err (fmt_Errorf_dw "upload failed after %d attempts: %w" (Retries s) lastErr), [])
  | S remaining' =>
      let continue lastErr' :=
        let '(r, t) := uploadLoop net s remaining' (attempt + 1) (Some lastErr') in
        (r, slept attempt ++ Attempt attempt :: t) in
      let stop r := (r, slept attempt ++ [Attempt attempt]) in
      match net (Z.to_nat attempt) with
      | NewRequestFails err =>
          continue (fmt_Errorf_w "failed to create request: %w" (Some err))
      | DoFails err =>
          match Client s with
          | None => stop (Panic "nil pointer dereference")
          | Some _ => continue (fmt_Errorf_w "request failed: %w" (Some err))
          end
      | DoReturns resp =>
          match Client s with
          | None => stop (Panic "nil pointer dereference")
          | Some _ =>
              let code := StatusCode resp in
              if (code =? 401)%Z || (code =? 403)%Z then
                stop (Err (fmt_Errorf_d "authentication failed: %d" code))
              else if retryable code then
                continue (fmt_Errorf_d "server error: %d" code)
              else if (code <? 200)%Z || (code >=? 300)%Z then
                stop (Err (fmt_Errorf_d "unexpected status code: %d" code))
              else
                match Body resp with
                | inl err => continue (fmt_Errorf_w "failed to read response: %w" (Some err))
                | inr body => stop (Ok body)
                end
          end
      end
  end.

Definition uploadWithRetries (net : network) (s : HTTPStorage) : result string * trace :=
  uploadLoop net s (Z.to_nat (Retries s)) 0 None.

(** The parts of the operating system and of the Go libraries that storage.go
    and metadata.go call into.  They are outside the package; the embedding
    takes their answers as given. *)
Record parsedURL : Type := { Scheme : string; Host : string }.

(** The anonymous struct [uploadProfile] decodes the upload response into. *)
Record uploadResponse : Type := {
  ProfileID : string;     (* json:"profile_id" *)
  ProfileURL : string;    (* json:"profile_url" *)
  Type_ : string          (* json:"type" *)
}.

Inductive fileRead : Type :=
| OpenFails (err : error)
| ReadFails (err : error)
| Contents (data : list Byte.byte).

Inductive gzipped : Type :=
| WriteFails (err : error)
| CloseFails (err : error)
| Compressed (data : list Byte.byte).

Record OS : Type := {
  url_Parse : string -> error + parsedURL;
  json_Unmarshal : string -> error + uploadResponse;
  os_Open_ReadAll : string -> fileRead;          (* os.Open then io.ReadAll *)
  gzip_Write_Close : list Byte.byte -> gzipped;  (* gzip.NewWriter, Write, Close *)
  os_ReadFile : string -> error + list Byte.byte;
  os_Open : string -> option error;
  os_Create : string -> option error;
  io_Copy : string -> string -> option error;    (* destination, source *)
  filepath_Base : string -> string;
  filepath_Join : string -> string -> string
}.

Record FileStorage : Type := { Directory : string }.

(** The [Storage] interface with the three implementations of the package;
    callers may bring their own. *)
Inductive Storage : Type :=
| HTTP (s : HTTPStorage)
| File (s : FileStorage)
| Stdout
| Custom (upload : string -> result string).

Section Storage.

Variable os : OS.
Variable net : network.

Definition readAndCompressFile (filePath : string) : result (list Byte.byte) :=
  match os_Open_ReadAll os filePath with
  | OpenFails err => Err (fmt_Errorf_w "failed to open file: %w" (Some err))
  | ReadFails err => Err (fmt_Errorf_w "failed to read file: %w" (Some err))
  | Contents fileData =>
      match gzip_Write_Close os fileData with
      | WriteFails err => Err (fmt_Errorf_w "failed to compress data: %w" (Some err))
      | CloseFails err => Err (fmt_Errorf_w "failed to finalize compression: %w" (Some err))
      | Compressed buf => Ok buf
      end
  end.

(** Everything [HTTPStorage.Upload] does before its first request: the
    required fields, the URL and its scheme, the file. *)
Definition prepare (s : HTTPStorage) (filePath : string) : result (list Byte.byte) :=
  if bool_decide (URL s = "") || bool_decide (APIKey s = "") then
    Err (errors_New "URL and APIKey are required")
  else
    match url_Parse os (URL s) with
    | inl err => Err (fmt_Errorf_w "invalid URL: %w" (Some err))
    | inr parsed =>
        if bool_decide (Scheme parsed ≠ "https") && bool_decide (Env s ≠ "local") then
          Err (errors_New "HTTPS is required for secure uploads")
        else readAndCompressFile filePath
    end.

Definition HTTPStorage_Upload (s : HTTPStorage) (filePath : string)
    : result string * trace :=
  match prepare s filePath with
  | Ok _ => uploadWithRetries net s
  | Err e => (Err e, [])
  | Panic reason => (Panic reason, [])
  end.

Definition FileStorage_Upload (s : FileStorage) (filePath : string) : result string :=
  if bool_decide (Directory s = "") then Err (errors_New "directory is required")
  else
    let fileName := filepath_Base os filePath in
    let targetPath := filepath_Join os (Directory s) fileName in
    match os_Open os filePath with
    | Some err => Err (fmt_Errorf_w "failed to open source file: %w" (Some err))
    | None =>
        match os_Create os targetPath with
        | Some err => Err (fmt_Errorf_w "failed to create destination file: %w" (Some err))
        | None =>
            match io_Copy os targetPath filePath with
            | Some err => Err (fmt_Errorf_w "failed to copy file: %w" (Some err))
            | None => Ok targetPath
            end
        end
    end.

(** [StdoutStorage.Upload] prints a summary of the file (not traced) and
    returns a literal marker. *)
Definition StdoutStorage_Upload (filePath : string) : result string :=
  match os_ReadFile os filePath with
  | inl err => Err (fmt_Errorf_w "failed to read profile file: %w" (Some err))
  | inr _ => Ok "stdout"
  end.

(** Dynamic dispatch of [Storage.Upload]. *)
Definition Storage_Upload (st : Storage) (filePath : string) : result string * trace :=
  match st with
  | HTTP s => HTTPStorage_Upload s filePath
  | File s => (FileStorage_Upload s filePath, [])
  | Stdout => (StdoutStorage_Upload filePath, [])
  | Custom upload => (upload filePath, [])
  end.

End Storage.

(** ** config.go *)

Definition DefaultSampleRate : Z := 60 * Second.
Definition DefaultProfileDuration : Z := 10 * Second.
Definition DefaultMemProfileRate : Z := 4096.
Definition DefaultMutexFraction : Z := 5.
Definition DefaultBlockProfileRate : Z := 100.

Module Config.

(** The struct of config.go, with the two fields that [New] and
    [uploadProfile] read from it besides ([OutputToStdout], [Env]); config.go
    itself neither declares nor reads them. *)
Record t : Type := {
  APIKey : string;
  IngestURL : string;
  SampleRate : Z;
  ProfileDuration : Z;
  Storage : option Storage;      (* an interface value: [None] is nil *)
  ServiceName : string;
  Tags : gmap string string;
  MemProfileRate : Z;
  MutexFraction : Z;
  BlockProfileRate : Z;
  EnableCPU : bool;
  EnableMemory : bool;
  EnableGoroutine : bool;
  EnableMutex : bool;
  EnableBlock : bool;
  EnableCustom : bool;
  OutputToStdout : bool;
  Env : string
}.

Definition noneEnabled (c : t) : bool :=
  negb (EnableCPU c) && negb (EnableMemory c) && negb (EnableGoroutine c)
  && negb (EnableMutex c) && negb (EnableBlock c) && negb (EnableCustom c).

(** [validate] has a pointer receiver: it returns the error and leaves the
    defaults it filled in behind in the struct.  The pair is the struct
    after the call and the error returned; on the four early returns the
    struct has not been touched. *)
Definition validate (c : t) : t * option error :=
  if bool_decide (APIKey c = "") then (c, Some (errors_New "APIKey is required"))
  else if bool_decide (IngestURL c = "") then (c, Some (errors_New "IngestURL is required"))
  else if bool_decide (Storage c = None) then (c, Some (errors_New "Storage is required"))
  else if bool_decide (ServiceName c = "") then (c, Some (errors_New "ServiceName is required"))
  else
    ({| APIKey := APIKey c;
        IngestURL := IngestURL c;
        SampleRate := if (SampleRate c <=? 0)%Z then DefaultSampleRate else SampleRate c;
        ProfileDuration :=
          if (ProfileDuration c <=? 0)%Z then DefaultProfileDuration else ProfileDuration c;
        Storage := Storage c;
        ServiceName := ServiceName c;
        Tags := Tags c;
        MemProfileRate :=
          if (MemProfileRate c <=? 0)%Z then DefaultMemProfileRate else MemProfileRate c;
        MutexFraction :=
          if (MutexFraction c <=? 0)%Z then DefaultMutexFraction else MutexFraction c;
        BlockProfileRate :=
          if (BlockProfileRate c <=? 0)%Z then DefaultBlockProfileRate else BlockProfileRate c;
        EnableCPU := if noneEnabled c then true else EnableCPU c;
        EnableMemory := if noneEnabled c then true else EnableMemory c;
        EnableGoroutine := EnableGoroutine c;
        EnableMutex := EnableMutex c;
        EnableBlock := EnableBlock c;
        EnableCustom := EnableCustom c;
        OutputToStdout := OutputToStdout c;
        Env := Env c |}, None).

End Config.

Definition DefaultConfig (apiKey ingestURL serviceName : string) : Config.t :=
  {| Config.APIKey := apiKey;
     Config.IngestURL := ingestURL;
     Config.SampleRate := DefaultSampleRate;
     Config.ProfileDuration := DefaultProfileDuration;
     Config.Storage :=
       Some (HTTP {| URL := String.append ingestURL "/upload"; APIKey := apiKey;
                     Client := None; Retries := 0; Env := "" |});
     Config.ServiceName := serviceName;
     Config.Tags := ∅;
     Config.MemProfileRate := DefaultMemProfileRate;
     Config.MutexFraction := DefaultMutexFraction;
     Config.BlockProfileRate := DefaultBlockProfileRate;
     Config.EnableCPU := true;
     Config.EnableMemory := true;
     Config.EnableGoroutine := false;
     Config.EnableMutex := false;
     Config.EnableBlock := false;
     Config.EnableCustom := false;
     Config.OutputToStdout := false;
     Config.Env := "" |}.

(** ** metadata.go *)

Record metadataClient : Type := {
  ingestURL : string;
  apiKey : string;
  client : http_Client;
  retries : Z
}.

Definition newMetadataClient (ingestURL apiKey : string) : metadataClient :=
  {| ingestURL := ingestURL;
     apiKey := apiKey;
     client := {| Timeout := 10 * Second |};
     retries := 3 |}.

(** [strings.Contains] *)
Definition strings_Contains (s substr : string) : bool :=
  match String.index 0 substr s with Some _ => true | None => false end.

(** [sendRequest], given what the network does with this request. *)
Definition sendRequest (rt : roundTrip) : option error :=
  match rt with
  | NewRequestFails err => Some (fmt_Errorf_w "failed to create request: %w" (Some err))
  | DoFails err => Some (fmt_Errorf_w "request failed: %w" (Some err))
  | DoReturns resp =>
      if (StatusCode resp <? 200)%Z || (StatusCode resp >=? 300)%Z then
        Some (fmt_Errorf_d "unexpected status code: %d" (StatusCode resp))
      else None
  end.

(** [(1 << uint(attempt)) * 100] in [int], then
    [time.Duration(backoffMs) * time.Millisecond]. *)
Definition backoffMs (attempt : Z) : Z := wrap64 (wrap64 (Z.shiftl 1 attempt) * 100).

Definition metadataBackoff (attempt : Z) : Z := wrap64 (backoffMs attempt * Millisecond).

(** The [for attempt := 0; attempt < m.retries; attempt++] loop of
    [sendMetadata]. *)
Fixpoint sendLoop (net : network) (m : metadataClient) (remaining : nat)
    (attempt : Z) (lastErr : option error) : option error * trace :=
  match remaining with
  | O => (Some (fmt_Errorf_dw "failed to send metadata after %d attempts: %w"
                  (retries m) lastErr), [])
  | S remaining' =>
      match sendRequest (net (Z.to_nat attempt)) with
      | Some err =>
          let '(r, t) := sendLoop net m remaining' (attempt + 1) (Some err) in
          (r, Attempt attempt :: Sleep (metadataBackoff attempt) :: t)
      | None => (None, [Attempt attempt])
      end
  end.

(** The scheme check of [sendMetadata]: https, or a host on the local
    machine. *)
Definition plainRemote (parsed : parsedURL) : bool :=
  bool_decide (Scheme parsed ≠ "https")
  && negb (strings_Contains (Host parsed) "localhost")
  && negb (strings_Contains (Host parsed) "127.0.0.1").

Section Metadata.

Variable os : OS.
Variable net : network.   (* the metadata endpoint *)

(** [json.Marshal] of a [map[string]string] cannot fail, and the loop does
    not look at the payload. *)
Definition sendMetadata (m : metadataClient) (metadata : gmap string string)
    : option error * trace :=
  match url_Parse os (ingestURL m) with
  | inl err => (Some (fmt_Errorf_w "invalid ingest URL: %w" (Some err)), [])
  | inr parsed =>
      if plainRemote parsed
      then (Some (errors_New "HTTPS is required for ingest URL"), [])
      else sendLoop net m (Z.to_nat (retries m)) 0 None
  end.

End Metadata.

(** ** Custom spans and their aggregation *)

Record Span : Type := {
  Name : string;
  Start : Z;
  Duration : Z;
  SpanTags : gmap string string
}.

(** What the goroutine of [processCustomSpans] keeps in its frame: the
    [spans] map, the [spansLock] mutex (true while locked), and, for the
    record, the snapshots it has handed to [processSpans], oldest first. *)
Record aggregator : Type := {
  spans : gmap string (list Span);
  spansLock : bool;
  handed : list (gmap string (list Span))
}.

Definition newAggregator : aggregator :=
  {| spans := ∅; spansLock := false; handed := [] |}.

(** [sync.Mutex.Lock]: the mutex after the call, or [None] when it is
    already locked and the caller parks until somebody unlocks it.
    [spansLock] is a local of [processCustomSpans] that no other goroutine
    holds, so a park on it never ends. *)
Definition Lock (locked : bool) : option bool :=
  if locked then None else Some true.

Definition Unlock (locked : bool) : bool := false.

(** [case span := <-p.spanCh]: Lock, append, Lock.  The boolean tells
    whether the goroutine is parked when the case is over. *)
Definition receiveSpan (a : aggregator) (span : Span) : aggregator * bool :=
  match Lock (spansLock a) with
  | None => (a, true)
  | Some locked =>
      let a1 := {| spans := <[Name span := default [] (spans a !! Name span) ++ [span]]> (spans a);
                   spansLock := locked;
                   handed := handed a |} in
      match Lock (spansLock a1) with
      | None => (a1, true)
      | Some locked' =>
          ({| spans := spans a1; spansLock := locked'; handed := handed a1 |}, false)
      end
  end.

(** [case <-flushTicker.C]: Lock, and when the map is not empty swap it for a
    fresh one, Unlock and hand the old one to [processSpans]. *)
Definition flushSpans (a : aggregator) : aggregator * bool :=
  match Lock (spansLock a) with
  | None => (a, true)
  | Some locked =>
      if (0 <? size (spans a))%nat then
        ({| spans := ∅; spansLock := Unlock locked; handed := handed a ++ [spans a] |}, false)
      else
        ({| spans := spans a; spansLock := Unlock locked; handed := handed a |}, false)
  end.

(** The cases of the two [select] statements of the package. *)
Inductive selectCase : Type :=
| caseSpan (span : Span)   (* span := <-p.spanCh *)
| caseTick                 (* <-ticker.C, <-flushTicker.C *)
| caseStop                 (* <-p.stopCh *)
| caseCtxDone.             (* <-ctx.Done() *)

Inductive goroutineState : Type :=
| Selecting (a : aggregator)   (* at the [select], able to take a case *)
| Parked (a : aggregator)      (* inside [Lock], for good *)
| Returned (a : aggregator).   (* the function has returned *)

(** One pass of the [for { select { ... } }] loop of [processCustomSpans]
    with the case the scheduler picked. *)
Definition processCustomSpans_pass (st : goroutineState) (c : selectCase) : goroutineState :=
  match st with
  | Selecting a =>
      match c with
      | caseSpan span =>
          let '(a', parked) := receiveSpan a span in
          if parked then Parked a' else Selecting a'
      | caseTick =>
          let '(a', parked) := flushSpans a in
          if parked then Parked a' else Selecting a'
      | caseStop | caseCtxDone => Returned a
      end
  | Parked a => Parked a
  | Returned a => Returned a
  end.

(** The goroutine from its launch, through the cases the scheduler picks. *)
Definition processCustomSpans_run (schedule : list selectCase) : goroutineState :=
  fold_left processCustomSpans_pass schedule (Selecting newAggregator).

Definition aggregatorOf (st : goroutineState) : aggregator :=
  match st with Selecting a | Parked a | Returned a => a end.

(** The spans the aggregator holds under a name. *)
Definition bucket (a : aggregator) (name : string) : list Span :=
  default [] (spans a !! name).

(** The intake queue [spanCh]: a channel with room for 1000 spans, written
    by [StartSpan] with a [select] that has a [default] case. *)
Definition spanChCapacity : nat := 1000.

Definition trySend (queue : list Span) (span : Span) : list Span :=
  if (length queue <? spanChCapacity)%nat then queue ++ [span] else queue.

(** The loop of [StartSpan] over the alternating keys and values. *)
Fixpoint tagPairs (tags : list string) (m : gmap string string) : gmap string string :=
  match tags with
  | key :: value :: rest => tagPairs rest (<[key := value]> m)
  | _ => m
  end.

(** [StartSpan]: the span, and the queue of the profiler found in the
    context, if there is one, after the non-blocking send. *)
Definition StartSpan (now : Z) (prof : option (list Span)) (name : string)
    (tags : list string) : Span * option (list Span) :=
  let span := {| Name := name; Start := now; Duration := 0; SpanTags := tagPairs tags ∅ |} in
  (span, (fun queue => trySend queue span) <$> prof).

(** ** The profiler and its goroutines *)

Definition profileTypeCPU : string := "cpu".
Definition profileTypeMemory : string := "memory".
Definition profileTypeGoroutine : string := "goroutine".
Definition profileTypeMutex : string := "mutex".
Definition profileTypeBlock : string := "block".
Definition profileTypeCustom : string := "custom".

(** The struct, without its two synchronisation fields: [mu] serialises
    [start] and [stop], which the embedding runs one at a time, and the
    count of [wg] is the number of goroutines of the profiler that have not
    returned, which the runtime below keeps. Channels are named by the order
    in which [make] created them. *)
Record Profiler : Type := {
  config : Config.t;
  stopCh : nat;
  initialized : bool;
  spanCh : nat;
  originalMemProfileRate : Z;
  originalMutexFraction : Z;
  originalBlockProfileRate : Z
}.

Inductive task : Type :=
| collectProfiles (profileType : string)
| processCustomSpans (st : goroutineState).

(** A goroutine launched by [start]: it holds the profiler, hence the
    profiler's [stopCh], and the context [start] was given. *)
Record goroutine : Type := {
  g_task : task;
  g_stopCh : nat;
  g_ctx : nat
}.

(** The state of the process that the profiler reads and writes: the three
    profiling knobs of package [runtime], for every channel whether it has
    been closed, the contexts that are done, and the live goroutines. *)
Record runtime : Type := {
  runtime_MemProfileRate : Z;
  mutexProfileFraction : Z;
  blockProfileRate : Z;
  chans : list bool;
  doneCtx : gset nat;
  goroutines : list goroutine
}.

Definition make (rt : runtime) : nat * runtime :=
  (length (chans rt),
   {| runtime_MemProfileRate := runtime_MemProfileRate rt;
      mutexProfileFraction := mutexProfileFraction rt;
      blockProfileRate := blockProfileRate rt;
      chans := chans rt ++ [false];
      doneCtx := doneCtx rt;
      goroutines := goroutines rt |}).

Definition isClosed (rt : runtime) (ch : nat) : bool := default false (chans rt !! ch).

Definition close (ch : nat) (rt : runtime) : runtime :=
  {| runtime_MemProfileRate := runtime_MemProfileRate rt;
     mutexProfileFraction := mutexProfileFraction rt;
     blockProfileRate := blockProfileRate rt;
     chans := <[ch := true]> (chans rt);
     doneCtx := doneCtx rt;
     goroutines := goroutines rt |}.

Definition newProfiler (config : Config.t) (rt : runtime) : result Profiler * runtime :=
  match Config.validate config with
  | (_, Some err) => (Err (fmt_Errorf_w "invalid configuration: %w" (Some err)), rt)
  | (config', None) =>
      let '(stop, rt1) := make rt in
      let '(span, rt2) := make rt1 in
      (Ok {| config := config'; stopCh := stop; initialized := false; spanCh := span;
             originalMemProfileRate := 0; originalMutexFraction := 0;
             originalBlockProfileRate := 0 |}, rt2)
  end.

(** [New] of pprofio.go. *)
Definition New (config : Config.t) (rt : runtime) : result Profiler * runtime :=
  let storage :=
    if Config.OutputToStdout config then Some Stdout
    else if bool_decide (Config.Storage config = None)
            && bool_decide (Config.APIKey config ≠ "")
            && bool_decide (Config.IngestURL config ≠ "")
    then Some (HTTP (NewHTTPStorage (String.append (Config.IngestURL config) "/upload")
                        (Config.APIKey config) (Config.Env config)))
    else Config.Storage config in
  let none := Config.noneEnabled config in
  let orDefault (v d : Z) := if (v =? 0)%Z then d else v in
  newProfiler
    {| Config.APIKey := Config.APIKey config;
       Config.IngestURL := Config.IngestURL config;
       Config.SampleRate := orDefault (Config.SampleRate config) DefaultSampleRate;
       Config.ProfileDuration := orDefault (Config.ProfileDuration config) DefaultProfileDuration;
       Config.Storage := storage;
       Config.ServiceName := Config.ServiceName config;
       Config.Tags := Config.Tags config;
       Config.MemProfileRate := orDefault (Config.MemProfileRate config) DefaultMemProfileRate;
       Config.MutexFraction := orDefault (Config.MutexFraction config) DefaultMutexFraction;
       Config.BlockProfileRate := orDefault (Config.BlockProfileRate config) DefaultBlockProfileRate;
       Config.EnableCPU := if none then true else Config.EnableCPU config;
       Config.EnableMemory := if none then true else Config.EnableMemory config;
       Config.EnableGoroutine := Config.EnableGoroutine config;
       Config.EnableMutex := Config.EnableMutex config;
       Config.EnableBlock := Config.EnableBlock config;
       Config.EnableCustom := Config.EnableCustom config;
       Config.OutputToStdout := Config.OutputToStdout config;
       Config.Env := Config.Env config |}
    rt.

(** The goroutines [start] launches, in the order of its [go] statements. *)
Definition launched (p : Profiler) (ctx : nat) : list goroutine :=
  let go (enabled : bool) (t : task) :=
    if enabled then [{| g_task := t; g_stopCh := stopCh p; g_ctx := ctx |}] else [] in
  go (Config.EnableCPU (config p)) (collectProfiles profileTypeCPU)
  ++ go (Config.EnableMemory (config p)) (collectProfiles profileTypeMemory)
  ++ go (Config.EnableGoroutine (config p)) (collectProfiles profileTypeGoroutine)
  ++ go (Config.EnableMutex (config p)) (collectProfiles profileTypeMutex)
  ++ go (Config.EnableBlock (config p)) (collectProfiles profileTypeBlock)
  ++ go (Config.EnableCustom (config p)) (processCustomSpans (Selecting newAggregator)).

(** [Profiler.start]: the error returned, the profiler and the runtime after
    the call. *)
Definition start (p : Profiler) (ctx : nat) (rt : runtime) : option error * Profiler * runtime :=
  if initialized p then (Some (errors_New "profiler already started"), p, rt)
  else
    let c := config p in
    (None,
     {| config := c; stopCh := stopCh p; initialized := true; spanCh := spanCh p;
        originalMemProfileRate := runtime_MemProfileRate rt;
        originalMutexFraction := 0;
        originalBlockProfileRate := 0 |},
     {| runtime_MemProfileRate :=
          if Config.EnableMemory c then Config.MemProfileRate c else runtime_MemProfileRate rt;
        mutexProfileFraction :=
          if Config.EnableMutex c then Config.MutexFraction c else mutexProfileFraction rt;
        blockProfileRate :=
          if Config.EnableBlock c then Config.BlockProfileRate c else blockProfileRate rt;
        chans := chans rt;
        doneCtx := doneCtx rt;
        goroutines := goroutines rt ++ launched p ctx |}).

Definition isParked (g : goroutine) : bool :=
  match g_task g with
  | processCustomSpans (Parked _) => true
  | _ => false
  end.

(** Which cases of its [select] a goroutine can take: the span case belongs
    to [processCustomSpans] alone (the span is the one at the head of the
    queue), [ticked] says whether its ticker has fired. *)
Definition ready (rt : runtime) (g : goroutine) (ticked : bool) (c : selectCase) : bool :=
  negb (isParked g) &&
  match c with
  | caseSpan _ => match g_task g with processCustomSpans _ => true | _ => false end
  | caseTick => ticked
  | caseStop => isClosed rt (g_stopCh g)
  | caseCtxDone => bool_decide (g_ctx g ∈ doneCtx rt)
  end.

(** One pass of a goroutine's loop; [None] when it returns (and, deferred,
    calls [wg.Done]).  What a collector captures and uploads on a tick is
    [uploadProfile] below and leaves this state alone. *)
Definition pass (g : goroutine) (c : selectCase) : option goroutine :=
  match g_task g with
  | collectProfiles _ =>
      match c with
      | caseStop | caseCtxDone => None
      | _ => Some g
      end
  | processCustomSpans st =>
      match processCustomSpans_pass st c with
      | Returned _ => None
      | st' => Some {| g_task := processCustomSpans st'; g_stopCh := g_stopCh g;
                       g_ctx := g_ctx g |}
      end
  end.

(** [p.wg.Wait()]: returns once every goroutine of the profiler has returned.
    Each of them does at a [select] where the stop or the context case is
    ready; one that is parked never reaches its [select] again, and then the
    wait has no end ([None]). *)
Definition wg_Wait (p : Profiler) (rt : runtime) : option runtime :=
  let mine g := bool_decide (g_stopCh g = stopCh p) in
  let returns g := ready rt g false caseStop || ready rt g false caseCtxDone in
  if forallb (fun g => negb (mine g) || returns g) (goroutines rt) then
    Some {| runtime_MemProfileRate := runtime_MemProfileRate rt;
            mutexProfileFraction := mutexProfileFraction rt;
            blockProfileRate := blockProfileRate rt;
            chans := chans rt;
            doneCtx := doneCtx rt;
            goroutines := filter (fun g => g_stopCh g ≠ stopCh p) (goroutines rt) |}
  else None.

(** [Profiler.stop]; [None] when the call never returns. *)
Definition stop (p : Profiler) (rt : runtime) : option (Profiler * runtime) :=
  if negb (initialized p) then Some (p, rt)
  else
    let rt1 := if isClosed rt (stopCh p) then rt else close (stopCh p) rt in
    match wg_Wait p rt1 with
    | None => None
    | Some rt2 =>
        Some ({| config := config p; stopCh := stopCh p; initialized := false;
                 spanCh := spanCh p;
                 originalMemProfileRate := originalMemProfileRate p;
                 originalMutexFraction := originalMutexFraction p;
                 originalBlockProfileRate := originalBlockProfileRate p |},
              {| runtime_MemProfileRate := originalMemProfileRate p;
                 mutexProfileFraction := originalMutexFraction p;
                 blockProfileRate := originalBlockProfileRate p;
                 chans := chans rt2;
                 doneCtx := doneCtx rt2;
                 goroutines := goroutines rt2 |})
    end.

(** The scheduler lets goroutine number [i] take case [c] of its [select];
    [None] when the goroutine does not exist or the case is not ready. *)
Definition schedule (rt : runtime) (i : nat) (ticked : bool) (c : selectCase) : option runtime :=
  match goroutines rt !! i with
  | None => None
  | Some g =>
      if ready rt g ticked c then
        Some {| runtime_MemProfileRate := runtime_MemProfileRate rt;
                mutexProfileFraction := mutexProfileFraction rt;
                blockProfileRate := blockProfileRate rt;
                chans := chans rt;
                doneCtx := doneCtx rt;
                goroutines :=
                  match pass g c with
                  | None => delete i (goroutines rt)
                  | Some g' => <[i := g']> (goroutines rt)
                  end |}
      else None
  end.

(** ** Handing a captured profile to storage and metadata *)

(** [for k, v := range p.config.Tags { metadata[k] = v }] *)
Definition addTags (tags metadata : gmap string string) : gmap string string :=
  map_fold (fun k v m => <[k := v]> m) metadata tags.

Section UploadProfile.

Variable os : OS.
Variable uploadNet : network.     (* the endpoint of the HTTP storage *)
Variable metadataNet : network.   (* the metadata endpoint *)
Variable now : Z.                 (* time.Now().Unix() *)

Definition Profiler_sendMetadata (p : Profiler) (metadata : gmap string string)
    : option error * trace :=
  sendMetadata os metadataNet
    (newMetadataClient (Config.IngestURL (config p)) (Config.APIKey (config p)))
    metadata.

(** The map literal of [uploadProfile] followed by the loop over the tags. *)
Definition metadataRecord (p : Profiler) (response : uploadResponse) : gmap string string :=
  addTags (Config.Tags (config p))
    (<["profile_id" := ProfileID response]>
     (<["profile_url" := ProfileURL response]>
      (<["service" := Config.ServiceName (config p)]>
       (<["type" := Type_ response]>
        (<["timestamp" := itoa now]> ∅))))).

Definition uploadProfile (p : Profiler) (filePath profileType : string)
    : result unit * trace :=
  match Config.Storage (config p) with
  | None => (Panic "nil pointer dereference", [])
  | Some storage =>
      match Storage_Upload os uploadNet storage filePath with
      | (Panic reason, t) => (Panic reason, t)
      | (Err err, t) => (Err (fmt_Errorf_w "failed to upload profile: %w" (Some err)), t)
      | (Ok uploadResp, t) =>
          match json_Unmarshal os uploadResp with
          | inl err =>
              (Err (fmt_Errorf_w "failed to parse upload response: %w" (Some err)), t)
          | inr response =>
              let metadata := metadataRecord p response in
              if Config.OutputToStdout (config p) then
                match storage with
                | Stdout => (Ok tt, t ++ [PrintMetadata metadata])
                | _ => (Ok tt, t)
                end
              else
                match Profiler_sendMetadata p metadata with
                | (Some err, t') =>
                    (Err (fmt_Errorf_w "failed to send metadata: %w" (Some err)),
                     t ++ SendMetadata metadata :: t')
                | (None, t') => (Ok tt, t ++ SendMetadata metadata :: t')
                end
          end
      end
  end.

End UploadProfile.

(** The metadata records a trace hands to the dispatcher or prints. *)
Fixpoint records (t : trace) : list (gmap string string) :=
  match t with
  | [] => []
  | SendMetadata m :: t' | PrintMetadata m :: t' => m :: records t'
  | _ :: t' => records t'
  end.

(** ** Vocabulary of the statements *)

(** The trace of [n] passes of the upload loop that all go round again,
    starting with pass number [attempt]. *)
Fixpoint passes (attempt : Z) (n : nat) : trace :=
  match n with
  | O => []
  | S n' => slept attempt ++ Attempt attempt :: passes (attempt + 1) n'
  end.

(** The failure the metadata loop remembers after [n] failed passes from
    pass [a] on. *)
Definition lastFailure (net : network) (a n : nat) (last : option error) : option error :=
  match n with
  | O => last
  | S n' => sendRequest (net (a + n')%nat)
  end.

(** The trace of [n] passes of the metadata loop whose request fails, from
    pass number [a] on: each request is followed by its backoff sleep. *)
Fixpoint failedSends (a n : nat) : trace :=
  match n with
  | O => []
  | S n' =>
      Attempt (Z.of_nat a) :: Sleep (metadataBackoff (Z.of_nat a)) :: failedSends (S a) n'
  end.

Definition strictlyIncreasing (l : list Z) : Prop :=
  forall i j a b, (i < j)%nat -> l !! i = Some a -> l !! j = Some b -> (a < b)%Z.

(** An endpoint that answers every request with the same status and body. *)
Definition always (code : Z) (body : string) : network :=
  fun _ => DoReturns {| StatusCode := code; Body := inr body |}.

(** An endpoint that answers [code] to the first [n] requests and 200 with
    [body] from then on. *)
Definition failsFirst (n : nat) (code : Z) (body : string) : network :=
  fun k => if (k <? n)%nat then DoReturns {| StatusCode := code; Body := inr "" |}
           else DoReturns {| StatusCode := 200; Body := inr body |}.

(** Stand-ins for the operating system and libraries, in the manner of the
    package's tests: every file exists and is empty, compression is the
    identity, URLs are local https ones, and the JSON decoder accepts
    exactly the texts that open an object. *)
Definition testOS : OS :=
  {| url_Parse := fun _ => inr {| Scheme := "https"; Host := "localhost" |};
     json_Unmarshal := fun text =>
       match text with
       | String "{"%char _ => inr {| ProfileID := ""; ProfileURL := ""; Type_ := "" |}
       | _ => inl (errors_New "invalid character looking for beginning of value")
       end;
     os_Open_ReadAll := fun _ => Contents [];
     gzip_Write_Close := fun data => Compressed data;
     os_ReadFile := fun _ => inr [];
     os_Open := fun _ => None;
     os_Create := fun _ => None;
     io_Copy := fun _ _ => None;
     filepath_Base := fun path => path;
     filepath_Join := fun dir file => String.append dir (String.append "/" file) |}.

Definition testStorage (retries : Z) : HTTPStorage :=
  {| URL := "https://api.pprofio.com/upload"; APIKey := "test-key";
     Client := Some {| Timeout := 30 * Second |}; Retries := retries; Env := "" |}.

Definition testConfig (storage : option Storage) : Config.t :=
  {| Config.APIKey := "test-key";
     Config.IngestURL := "https://api.pprofio.com";
     Config.SampleRate := 5 * Second;
     Config.ProfileDuration := 1 * Second;
     Config.Storage := storage;
     Config.ServiceName := "test-service";
     Config.Tags := {[ "env" := "test" ]};
     Config.MemProfileRate := 0;
     Config.MutexFraction := 0;
     Config.BlockProfileRate := 0;
     Config.EnableCPU := true;
     Config.EnableMemory := true;
     Config.EnableGoroutine := false;
     Config.EnableMutex := false;
     Config.EnableBlock := false;
     Config.EnableCustom := false;
     Config.OutputToStdout := false;
     Config.Env := "" |}.

(** The configuration of the file-storage example with the identity fields
    left out. *)
Definition fileOnlyConfig : Config.t :=
  {| Config.APIKey := "";
     Config.IngestURL := "";
     Config.SampleRate := 10 * Second;
     Config.ProfileDuration := 5 * Second;
     Config.Storage := Some (File {| Directory := "/tmp/pprofio-example" |});
     Config.ServiceName := "example-service";
     Config.Tags := ∅;
     Config.MemProfileRate := 4096;
     Config.MutexFraction := 0;
     Config.BlockProfileRate := 0;
     Config.EnableCPU := true;
     Config.EnableMemory := true;
     Config.EnableGoroutine := false;
     Config.EnableMutex := false;
     Config.EnableBlock := false;
     Config.EnableCustom := false;
     Config.OutputToStdout := false;
     Config.Env := "" |}.

(** The "Valid config" of the configuration test: the required fields and
    nothing else. *)
Definition bareConfig : Config.t :=
  {| Config.APIKey := "test-key";
     Config.IngestURL := "https://api.pprofio.com";
     Config.SampleRate := 0;
     Config.ProfileDuration := 0;
     Config.Storage :=
       Some (HTTP {| URL := "https://api.pprofio.com/upload"; APIKey := "test-key";
                     Client := None; Retries := 0; Env := "" |});
     Config.ServiceName := "test-service";
     Config.Tags := ∅;
     Config.MemProfileRate := 0;
     Config.MutexFraction := 0;
     Config.BlockProfileRate := 0;
     Config.EnableCPU := false;
     Config.EnableMemory := false;
     Config.EnableGoroutine := false;
     Config.EnableMutex := false;
     Config.EnableBlock := false;
     Config.EnableCustom := false;
     Config.OutputToStdout := false;
     Config.Env := "" |}.

(** A process in which nothing has been created yet. *)
Definition freshRuntime : runtime :=
  {| runtime_MemProfileRate := 512 * 1024;
     mutexProfileFraction := 0;
     blockProfileRate := 0;
     chans := [];
     doneCtx := ∅;
     goroutines := [] |}.

(** The profiler [newProfiler] builds from [testConfig] in a fresh process,
    and the process it leaves. *)
Definition testProfiler (storage : option Storage) : Profiler :=
  {| config := (Config.validate (testConfig storage)).1;
     stopCh := 0; initialized := false; spanCh := 1;
     originalMemProfileRate := 0; originalMutexFraction := 0;
     originalBlockProfileRate := 0 |}.

Definition testRuntime : runtime :=
  {| runtime_MemProfileRate := 512 * 1024;
     mutexProfileFraction := 0;
     blockProfileRate := 0;
     chans := [false; false];
     doneCtx := ∅;
     goroutines := [] |}.

(** Two spans of the same name, as two requests would start them. *)
Definition spanA : Span :=
  {| Name := "test-operation"; Start := 1; Duration := 0;
     SpanTags := tagPairs ["endpoint"; "/api/test"] ∅ |}.

Definition spanB : Span :=
  {| Name := "test-operation"; Start := 2; Duration := 0;
     SpanTags := tagPairs ["endpoint"; "/api/test"] ∅ |}.

(** What can be said of the span goroutine at any time: it has handed
    nothing over, and it is either at its [select] with the map still
    empty, or has returned, or is parked. *)
Definition nothingHanded (st : goroutineState) : Prop :=
  handed (aggregatorOf st) = [] /\
  match st with
  | Selecting a => spans a = ∅ /\ spansLock a = false
  | _ => True
  end.

(** ** The rest of the package *)

(** [NewFileStorage], given what [os.MkdirAll(directory, 0755)] answers. *)
Definition NewFileStorage (os_MkdirAll : string -> option error) (directory : string)
    : result FileStorage :=
  if bool_decide (directory = "") then Err (errors_New "directory is required")
  else
    match os_MkdirAll directory with
    | Some err => Err (fmt_Errorf_w "failed to create directory: %w" (Some err))
    | None => Ok {| Directory := directory |}
    end.

(** The [profileType] that [displayPprofData] works out from the file name
    and prints after "Type:". *)
Definition displayedType (filePath : string) : string :=
  if strings_Contains filePath "cpu" then "CPU Profile"
  else if strings_Contains filePath "memory" || strings_Contains filePath "heap"
  then "Memory/Heap Profile"
  else if strings_Contains filePath "goroutine" then "Goroutine Profile"
  else if strings_Contains filePath "mutex" then "Mutex Profile"
  else if strings_Contains filePath "block" then "Block Profile"
  else "unknown".

(** How a run of [collectProfiles] stands at the end of a schedule. *)
Inductive loopEnd : Type :=
| Looping                       (* back at the [select] *)
| LoopReturned                  (* stop or context case taken *)
| LoopPanicked (reason : string).

(** The [for { select { ... } }] loop of [collectProfiles].  [collect k] is
    what the k-th call of [p.collectProfile] returns and does; its error, if
    any, goes to stderr and is dropped.  The result counts the calls made.
    The span case is not among the cases of this [select]. *)
Fixpoint collectLoop (collect : nat -> result unit * trace) (k : nat)
    (schedule : list selectCase) : loopEnd * nat * trace :=
  match schedule with
  | [] => (Looping, k, [])
  | caseTick :: rest =>
      match collect k with
      | (Panic reason, t) => (LoopPanicked reason, S k, t)
      | (_, t) =>
          let '(e, n, t') := collectLoop collect (S k) rest in
          (e, n, t ++ t')
      end
  | caseStop :: _ | caseCtxDone :: _ => (LoopReturned, k, [])
  | caseSpan _ :: rest => collectLoop collect k rest
  end.

(** [collectProfiles]: one collection at once, then the loop. *)
Definition collectProfiles_run (collect : nat -> result unit * trace)
    (schedule : list selectCase) : loopEnd * nat * trace :=
  match collect 0%nat with
  | (Panic reason, t) => (LoopPanicked reason, 1%nat, t)
  | (_, t) =>
      let '(e, n, t') := collectLoop collect 1 schedule in
      (e, n, t ++ t')
  end.

(** [Span.End], given [time.Since(s.Start)]. *)
Definition Span_End (s : Span) (since : Z) : Span :=
  {| Name := Name s; Start := Start s; Duration := since; SpanTags := SpanTags s |}.


(** A directory service for the file-storage statements. *)
Definition mkdirOk : string -> option error := fun _ => None.

(** * Properties *)

(** ** Traces *)

Lemma attempts_app (t1 t2 : trace) : attempts (t1 ++ t2) = (attempts t1 + attempts t2)%nat.
Proof.
  induction t1 as [|ev t1 IH]; [done|].
  destruct ev; simpl; by rewrite ?IH.
Qed.

Lemma attempts_cons_Attempt k (t : trace) : attempts (Attempt k :: t) = S (attempts t).
Proof. reflexivity. Qed.

Lemma attempts_slept k : attempts (slept k) = 0%nat.
Proof. unfold slept. by destruct (k >? 0)%Z. Qed.

Lemma sleeps_app (t1 t2 : trace) : sleeps (t1 ++ t2) = sleeps t1 ++ sleeps t2.
Proof.
  induction t1 as [|ev t1 IH]; [done|].
  destruct ev; simpl; by rewrite ?IH.
Qed.

Lemma records_app (t1 t2 : trace) : records (t1 ++ t2) = records t1 ++ records t2.
Proof.
  induction t1 as [|ev t1 IH]; [done|].
  destruct ev; simpl; by rewrite ?IH.
Qed.

Lemma attempts_passes a n : attempts (passes a n) = n.
Proof.
  revert a. induction n as [|n IH]; intros a; [done|].
  simpl. rewrite attempts_app, attempts_slept, attempts_cons_Attempt. by rewrite IH.
Qed.

Lemma passes_snoc a n :
  passes a (S n) = passes a n ++ slept (a + Z.of_nat n) ++ [Attempt (a + Z.of_nat n)].
Proof.
  revert a. induction n as [|n IH]; intros a.
  - simpl. by rewrite Z.add_0_r.
  - change (passes a (S (S n))) with (slept a ++ Attempt a :: passes (a + 1) (S n)).
    rewrite IH. simpl passes.
    replace (a + 1 + Z.of_nat n)%Z with (a + Z.of_nat (S n))%Z by lia.
    by rewrite <- !app_assoc.
Qed.

(** After the first pass every pass is preceded by its sleep. *)
Lemma sleeps_passes_pos a n :
  (0 < a)%Z ->
  sleeps (passes a n) = map (fun k => backoffDuration (a + Z.of_nat k)) (seq 0 n).
Proof.
  revert a. induction n as [|n IH]; intros a Ha; [done|].
  simpl passes. unfold slept. destruct (Z.gtb_spec a 0); [|lia].
  simpl. rewrite IH by lia. rewrite Z.add_0_r. f_equal.
  rewrite <- seq_shift, map_map. apply map_ext. intros k. f_equal. lia.
Qed.

Lemma sleeps_passes_0 n :
  sleeps (passes 0 n) = map (fun k => backoffDuration (Z.of_nat k)) (seq 1 (n - 1)).
Proof.
  destruct n as [|n]; [done|].
  change (passes 0 (S n)) with (Attempt 0 :: passes 1 n).
  cbn [sleeps]. rewrite sleeps_passes_pos by lia.
  replace (S n - 1)%nat with n by lia.
  rewrite <- seq_shift, map_map. apply map_ext. intros k. f_equal. lia.
Qed.

(** ** The backoff of the upload loop *)

(** Up to the 37th retry the sleep is the documented one; the product with
    [time.Millisecond] still fits an [int64]. *)
Lemma backoffDuration_exact k :
  (1 <= k <= 37)%Z -> backoffDuration k = (2 ^ (k - 1) * 100 * Millisecond)%Z.
Proof.
  intros Hk. unfold backoffDuration, backoff, float64_to_int64, wrap64, Millisecond.
  assert (Hp : (1 <= 2 ^ (k - 1) <= 2 ^ 36)%Z).
  { split.
    - assert (0 < 2 ^ (k - 1))%Z by (apply Z.pow_pos_nonneg; lia). lia.
    - apply Z.pow_le_mono_r; lia. }
  change (2 ^ 36)%Z with 68719476736%Z in Hp.
  change (2 ^ 63)%Z with 9223372036854775808%Z.
  change (2 ^ 64)%Z with 18446744073709551616%Z.
  destruct (Z.ltb_spec (2 ^ (k - 1) * 100) 9223372036854775808); [|lia].
  rewrite Z.mod_small by lia. lia.
Qed.

Lemma backoffDuration_mono j k :
  (1 <= j < k)%Z -> (k <= 37)%Z -> (backoffDuration j < backoffDuration k)%Z.
Proof.
  intros Hj Hk. rewrite !backoffDuration_exact by lia. unfold Millisecond.
  assert ((2 ^ (j - 1) < 2 ^ (k - 1))%Z) by (apply Z.pow_lt_mono_r; lia).
  lia.
Qed.

(** ** The upload loop *)

Section UploadLoop.

Variable net : network.
Variable s : HTTPStorage.
Variable c : http_Client.
Hypothesis HClient : Client s = Some c.

(** A pass that meets a rate limit or a server error goes round again. *)
Lemma uploadLoop_retry r a last resp :
  net a = DoReturns resp ->
  retryable (StatusCode resp) = true ->
  uploadLoop net s (S r) (Z.of_nat a) last =
    ((uploadLoop net s r (Z.of_nat a + 1)
        (Some (fmt_Errorf_d "server error: %d" (StatusCode resp)))).1,
     slept (Z.of_nat a) ++ Attempt (Z.of_nat a) ::
       (uploadLoop net s r (Z.of_nat a + 1)
          (Some (fmt_Errorf_d "server error: %d" (StatusCode resp)))).2).
Proof.
  intros Hnet Hretry. simpl. rewrite Nat2Z.id, Hnet, HClient.
  assert (Hauth : (StatusCode resp =? 401)%Z || (StatusCode resp =? 403)%Z = false).
  { destruct (Z.eqb_spec (StatusCode resp) 401) as [E|];
      [rewrite E in Hretry; discriminate|].
    destruct (Z.eqb_spec (StatusCode resp) 403) as [E|];
      [rewrite E in Hretry; discriminate|done]. }
  rewrite Hauth, Hretry. by destruct (uploadLoop _ _ _ _ _).
Qed.

(** [n] such passes in a row leave the trace [passes] and hand the loop
    over with some last error. *)
Lemma uploadLoop_passes n r a last :
  (forall k, (a <= k < a + n)%nat ->
     exists resp, net k = DoReturns resp /\ retryable (StatusCode resp) = true) ->
  exists last',
    uploadLoop net s (n + r) (Z.of_nat a) last =
      ((uploadLoop net s r (Z.of_nat (a + n)) last').1,
       passes (Z.of_nat a) n ++ (uploadLoop net s r (Z.of_nat (a + n)) last').2).
Proof.
  revert a last. induction n as [|n IH]; intros a last Hnet.
  - exists last. rewrite Nat.add_0_r. simpl. by destruct (uploadLoop _ _ _ _ _).
  - destruct (Hnet a) as (resp & Hresp & Hretry); [lia|].
    destruct (IH (S a) (Some (fmt_Errorf_d "server error: %d" (StatusCode resp))))
      as (last' & Hrest).
    { intros k Hk. apply Hnet. lia. }
    exists last'. change (S n + r)%nat with (S (n + r)).
    rewrite (uploadLoop_retry _ _ _ resp) by done.
    replace (Z.of_nat a + 1)%Z with (Z.of_nat (S a)) by lia.
    rewrite Hrest. replace (S a + n)%nat with (a + S n)%nat by lia.
    simpl. replace (Z.of_nat a + 1)%Z with (Z.of_nat (S a)) by lia.
    by rewrite <- app_assoc.
Qed.

(** A pass that meets a 2xx response whose body can be read ends the loop. *)
Lemma uploadLoop_success r a last resp body :
  net a = DoReturns resp ->
  (200 <= StatusCode resp < 300)%Z ->
  Body resp = inr body ->
  uploadLoop net s (S r) (Z.of_nat a) last =
    (Ok body, slept (Z.of_nat a) ++ [Attempt (Z.of_nat a)]).
Proof.
  intros Hnet Hcode Hbody. simpl. rewrite Nat2Z.id, Hnet, HClient, Hbody.
  unfold retryable.
  destruct (Z.eqb_spec (StatusCode resp) 401); [lia|].
  destruct (Z.eqb_spec (StatusCode resp) 403); [lia|].
  destruct (Z.eqb_spec (StatusCode resp) 429); [lia|].
  destruct (Z.geb_spec (StatusCode resp) 500); [lia|].
  destruct (Z.ltb_spec (StatusCode resp) 200); [lia|].
  destruct (Z.geb_spec (StatusCode resp) 300); [lia|].
  done.
Qed.

(** A pass that meets 401 or 403 ends the loop with that failure. *)
Lemma uploadLoop_auth r a last resp :
  net a = DoReturns resp ->
  StatusCode resp = 401%Z \/ StatusCode resp = 403%Z ->
  uploadLoop net s (S r) (Z.of_nat a) last =
    (Err (fmt_Errorf_d "authentication failed: %d" (StatusCode resp)),
     slept (Z.of_nat a) ++ [Attempt (Z.of_nat a)]).
Proof.
  intros Hnet Hcode. simpl. rewrite Nat2Z.id, Hnet, HClient.
  by destruct Hcode as [-> | ->].
Qed.

End UploadLoop.

(** Without a budget the loop body never runs. *)
Lemma uploadWithRetries_no_budget net s :
  (Retries s <= 0)%Z ->
  uploadWithRetries net s =
    (Err (fmt_Errorf_dw "upload failed after %d attempts: %w" (Retries s) None), []).
Proof.
  intros H. unfold uploadWithRetries.
  replace (Z.to_nat (Retries s)) with 0%nat by lia. reflexivity.
Qed.

Lemma HTTPStorage_Upload_prepared os net s filePath data :
  prepare os s filePath = Ok data ->
  HTTPStorage_Upload os net s filePath = uploadWithRetries net s.
Proof. intros H. unfold HTTPStorage_Upload. by rewrite H. Qed.

Lemma prepare_test retries filePath : prepare testOS (testStorage retries) filePath = Ok [].
Proof. reflexivity. Qed.

(** With a budget of three and three answers that all ask for a retry, the
    loop gives up with the failure of the third pass inside its error. *)
Lemma uploadWithRetries_three net s c r0 r1 r2 :
  Client s = Some c ->
  Retries s = 3%Z ->
  net 0%nat = DoReturns r0 -> retryable (StatusCode r0) = true ->
  net 1%nat = DoReturns r1 -> retryable (StatusCode r1) = true ->
  net 2%nat = DoReturns r2 -> retryable (StatusCode r2) = true ->
  uploadWithRetries net s =
    (Err (fmt_Errorf_dw "upload failed after %d attempts: %w" 3
            (Some (fmt_Errorf_d "server error: %d" (StatusCode r2)))),
     passes 0 3).
Proof.
  intros HClient HRetries H0 Hr0 H1 Hr1 H2 Hr2.
  unfold uploadWithRetries. rewrite HRetries.
  change (Z.to_nat 3) with 3%nat.
  pose proof (uploadLoop_retry net s c HClient 2 0 None r0 H0 Hr0) as E0.
  pose proof (uploadLoop_retry net s c HClient 1 1
                (Some (fmt_Errorf_d "server error: %d" (StatusCode r0))) r1 H1 Hr1) as E1.
  pose proof (uploadLoop_retry net s c HClient 0 2
                (Some (fmt_Errorf_d "server error: %d" (StatusCode r1))) r2 H2 Hr2) as E2.
  change (Z.of_nat 0 + 1)%Z with 1%Z in E0. change (Z.of_nat 0) with 0%Z in E0.
  change (Z.of_nat 1 + 1)%Z with 2%Z in E1. change (Z.of_nat 1) with 1%Z in E1.
  change (Z.of_nat 2 + 1)%Z with 3%Z in E2. change (Z.of_nat 2) with 2%Z in E2.
  rewrite E0, E1, E2. simpl. by rewrite HRetries.
Qed.

(** C2.  An upload through an [HTTPStorage] whose budget is 3 and whose
    endpoint answers every request with status 503 makes exactly three
    delivery attempts, and the error it returns wraps the error of the last
    of them, [server error: 503]. *)
Theorem upload_exhausts_budget_on_503 os net s c filePath data :
  prepare os s filePath = Ok data ->
  Client s = Some c ->
  Retries s = 3%Z ->
  (forall k, exists resp, net k = DoReturns resp /\ StatusCode resp = 503%Z) ->
  exists e t,
    HTTPStorage_Upload os net s filePath = (Err e, t)
    /\ attempts t = 3%nat
    /\ Unwrap e = Some (fmt_Errorf_d "server error: %d" 503)
    /\ Error e = "upload failed after 3 attempts: server error: 503".
Proof.
  intros Hprep HClient HRetries Hnet.
  destruct (Hnet 0%nat) as (r0 & H0 & E0).
  destruct (Hnet 1%nat) as (r1 & H1 & E1).
  destruct (Hnet 2%nat) as (r2 & H2 & E2).
  rewrite (HTTPStorage_Upload_prepared _ _ _ _ _ Hprep).
  rewrite (uploadWithRetries_three net s c r0 r1 r2 HClient HRetries H0)
    by (rewrite ?E0, ?E1, ?E2; done).
  rewrite E2. eexists _, _. split; [reflexivity|].
  split; [apply attempts_passes|]. split; reflexivity.
Qed.

Lemma upload_exhausts_budget_on_503_witness :
  exists e t,
    HTTPStorage_Upload testOS (always 503 "") (testStorage 3) "cpu.pprof" = (Err e, t)
    /\ attempts t = 3%nat
    /\ Unwrap e = Some (fmt_Errorf_d "server error: %d" 503)
    /\ Error e = "upload failed after 3 attempts: server error: 503".
Proof.
  apply (upload_exhausts_budget_on_503 testOS (always 503 "") (testStorage 3)
           {| Timeout := 30 * Second |} "cpu.pprof" []).
  - reflexivity.
  - reflexivity.
  - reflexivity.
  - intros k. eexists. split; reflexivity.
Defined.

(** C3.  An upload whose first request is answered with 401 or 403 returns
    the authentication failure itself, not the exhausted-budget error, after
    exactly one attempt: nothing is retried and nothing is slept. *)
Theorem upload_auth_failure_is_fatal os net s c filePath data resp :
  prepare os s filePath = Ok data ->
  Client s = Some c ->
  (0 < Retries s)%Z ->
  net 0%nat = DoReturns resp ->
  StatusCode resp = 401%Z \/ StatusCode resp = 403%Z ->
  exists t,
    HTTPStorage_Upload os net s filePath =
      (Err (fmt_Errorf_d "authentication failed: %d" (StatusCode resp)), t)
    /\ attempts t = 1%nat
    /\ sleeps t = [].
Proof.
  intros Hprep HClient HRetries Hnet Hcode.
  rewrite (HTTPStorage_Upload_prepared _ _ _ _ _ Hprep).
  unfold uploadWithRetries.
  destruct (Z.to_nat (Retries s)) as [|r] eqn:E; [lia|].
  pose proof (uploadLoop_auth net s c HClient r 0 None resp Hnet Hcode) as E0.
  change (Z.of_nat 0) with 0%Z in E0. rewrite E0.
  eexists. split; [reflexivity|]. split; reflexivity.
Qed.

Lemma upload_auth_failure_is_fatal_witness :
  exists t,
    HTTPStorage_Upload testOS (always 401 "") (testStorage 3) "cpu.pprof" =
      (Err (fmt_Errorf_d "authentication failed: %d" 401), t)
    /\ attempts t = 1%nat
    /\ sleeps t = [].
Proof.
  apply (upload_auth_failure_is_fatal testOS (always 401 "") (testStorage 3)
           {| Timeout := 30 * Second |} "cpu.pprof" []
           {| StatusCode := 401; Body := inr "" |}).
  - reflexivity.
  - reflexivity.
  - simpl. lia.
  - reflexivity.
  - left. reflexivity.
Defined.

(** The upload that fails [N - 1] times with a retryable status and then
    succeeds: its result and its whole trace. *)
Lemma uploadWithRetries_succeeds_late net s c (N : nat) resp body :
  Client s = Some c ->
  (1 <= N)%nat ->
  (Z.of_nat N <= Retries s)%Z ->
  (forall k, (k < N - 1)%nat ->
     exists r, net k = DoReturns r /\ retryable (StatusCode r) = true) ->
  net (N - 1)%nat = DoReturns resp ->
  (200 <= StatusCode resp < 300)%Z ->
  Body resp = inr body ->
  uploadWithRetries net s = (Ok body, passes 0 N).
Proof.
  intros HClient HN HRetries Hfail Hlast Hcode Hbody.
  unfold uploadWithRetries.
  replace (Z.to_nat (Retries s)) with ((N - 1) + S (Z.to_nat (Retries s) - N))%nat by lia.
  destruct (uploadLoop_passes net s c HClient (N - 1)
              (S (Z.to_nat (Retries s) - N)) 0 None) as (last' & Hloop).
  { intros k Hk. apply Hfail. lia. }
  change (Z.of_nat 0) with 0%Z in Hloop. rewrite Hloop.
  rewrite Nat.add_0_l.
  rewrite (uploadLoop_success net s c HClient _ (N - 1) last' resp body Hlast Hcode Hbody).
  simpl fst. simpl snd. f_equal.
  transitivity (passes 0 (S (N - 1))); [by rewrite passes_snoc, Z.add_0_l|].
  f_equal. lia.
Qed.

Lemma strictlyIncreasing_backoff (N : nat) :
  (N <= 38)%nat ->
  strictlyIncreasing (map (fun k => backoffDuration (Z.of_nat k)) (seq 1 (N - 1))).
Proof.
  intros HN i j a b Hij Ha Hb.
  rewrite list_lookup_fmap in Ha, Hb.
  destruct (seq 1 (N - 1) !! i) as [x|] eqn:Ex; [|done].
  destruct (seq 1 (N - 1) !! j) as [y|] eqn:Ey; [|done].
  apply lookup_seq in Ex as [-> Hi]. apply lookup_seq in Ey as [-> Hj].
  simpl in Ha, Hb. injection Ha as <-. injection Hb as <-.
  apply backoffDuration_mono; lia.
Qed.

(** C4, amended.  For every N between 1 and the retry budget, and no
    greater than 38: when the endpoint answers 500 to the first N - 1
    requests and a readable 2xx response to request N, the upload returns
    that response's body as the locator after exactly N attempts, and the
    sleeps between consecutive attempts are 2^(attempt-1) x 100ms for
    attempt = 1 .. N-1, hence strictly increasing.  (From the 38th retry on
    the product with [time.Millisecond] no longer fits the 64-bit
    [time.Duration].) *)
Theorem upload_succeeds_on_attempt_N os net s c filePath data (N : nat) resp body :
  prepare os s filePath = Ok data ->
  Client s = Some c ->
  (1 <= N)%nat ->
  (Z.of_nat N <= Retries s)%Z ->
  (N <= 38)%nat ->
  (forall k, (k < N - 1)%nat -> exists r, net k = DoReturns r /\ StatusCode r = 500%Z) ->
  net (N - 1)%nat = DoReturns resp ->
  (200 <= StatusCode resp < 300)%Z ->
  Body resp = inr body ->
  exists t,
    HTTPStorage_Upload os net s filePath = (Ok body, t)
    /\ attempts t = N
    /\ sleeps t = map (fun k => (2 ^ (Z.of_nat k - 1) * 100 * Millisecond)%Z) (seq 1 (N - 1))
    /\ strictlyIncreasing (sleeps t).
Proof.
  intros Hprep HClient HN HRetries H38 Hfail Hlast Hcode Hbody.
  rewrite (HTTPStorage_Upload_prepared _ _ _ _ _ Hprep).
  rewrite (uploadWithRetries_succeeds_late net s c N resp body); try done.
  - exists (passes 0 N). split; [done|]. split; [apply attempts_passes|].
    rewrite sleeps_passes_0. split.
    + apply map_ext_in. intros k Hk. apply in_seq in Hk.
      apply backoffDuration_exact. lia.
    + by apply strictlyIncreasing_backoff.
  - intros k Hk. destruct (Hfail k Hk) as (r & Hr & E).
    exists r. split; [done|]. by rewrite E.
Qed.

Lemma upload_succeeds_on_attempt_N_witness :
  exists t,
    HTTPStorage_Upload testOS (failsFirst 2 500 "https://storage.pprofio.com/profile123")
      (testStorage 3) "cpu.pprof" = (Ok "https://storage.pprofio.com/profile123", t)
    /\ attempts t = 3%nat
    /\ sleeps t = map (fun k => (2 ^ (Z.of_nat k - 1) * 100 * Millisecond)%Z) (seq 1 (3 - 1))
    /\ strictlyIncreasing (sleeps t).
Proof.
  apply (upload_succeeds_on_attempt_N testOS
           (failsFirst 2 500 "https://storage.pprofio.com/profile123") (testStorage 3)
           {| Timeout := 30 * Second |} "cpu.pprof" [] 3
           {| StatusCode := 200; Body := inr "https://storage.pprofio.com/profile123" |}).
  - reflexivity.
  - reflexivity.
  - lia.
  - simpl. lia.
  - lia.
  - intros k Hk. exists {| StatusCode := 500; Body := inr "" |}.
    split; [|reflexivity]. unfold failsFirst.
    destruct (Nat.ltb_spec k 2); [reflexivity|]. simpl in Hk. lia.
  - reflexivity.
  - simpl. lia.
  - reflexivity.
Defined.

(** C4 as stated fails for a budget of 39: the endpoint answers 500 to 38
    requests and 200 to the 39th, the locator comes back after 39 attempts,
    but the sleep before the last attempt has wrapped around to a negative
    duration, below the one before it. *)
Lemma upload_backoff_wraps_around :
  exists t,
    HTTPStorage_Upload testOS (failsFirst 38 500 "locator") (testStorage 39) "cpu.pprof"
      = (Ok "locator", t)
    /\ attempts t = 39%nat
    /\ ~ strictlyIncreasing (sleeps t).
Proof.
  eexists. split; [vm_compute; reflexivity|]. split; [reflexivity|].
  intros Hinc.
  specialize (Hinc 36%nat 37%nat 6871947673600000000%Z (-4702848726509551616)%Z).
  assert (6871947673600000000 < -4702848726509551616)%Z; [|lia].
  apply Hinc; [lia| |]; vm_compute; reflexivity.
Qed.

(** C10, amended.  An [HTTPStorage] whose [Retries] is zero or negative makes
    no delivery attempt and sleeps never; once the checks before the loop
    have passed, [Upload] returns the exhausted-budget error built from the
    value of [Retries] as it is and wrapping the nil error, which reads
    "upload failed after 0 attempts" when [Retries] is 0.  That is the case
    of the storage [DefaultConfig] builds, a literal with neither [Retries]
    nor [Client]; [NewHTTPStorage] sets the budget to 3. *)
Theorem upload_without_budget os net s filePath :
  (Retries s <= 0)%Z ->
  uploadWithRetries net s =
    (Err (fmt_Errorf_dw "upload failed after %d attempts: %w" (Retries s) None), [])
  /\ (forall data, prepare os s filePath = Ok data ->
        HTTPStorage_Upload os net s filePath =
          (Err (fmt_Errorf_dw "upload failed after %d attempts: %w" (Retries s) None), []))
  /\ (HTTPStorage_Upload os net s filePath).2 = []
  /\ Unwrap (fmt_Errorf_dw "upload failed after %d attempts: %w" (Retries s) None) = None
  /\ (Retries s = 0%Z ->
        Error (fmt_Errorf_dw "upload failed after %d attempts: %w" (Retries s) None)
          = "upload failed after 0 attempts: %!w(<nil>)")
  /\ (forall apiKey ingestURL serviceName,
        exists st, Config.Storage (DefaultConfig apiKey ingestURL serviceName) = Some (HTTP st)
                   /\ Retries st = 0%Z /\ Client st = None)
  /\ (forall url apiKey env, Retries (NewHTTPStorage url apiKey env) = 3%Z).
Proof.
  intros H. pose proof (uploadWithRetries_no_budget net s H) as E.
  split; [done|]. split.
  { intros data Hprep. by rewrite (HTTPStorage_Upload_prepared _ _ _ _ _ Hprep). }
  split.
  { unfold HTTPStorage_Upload. destruct (prepare os s filePath); [by rewrite E|done|done]. }
  split; [done|]. split.
  { intros ->. reflexivity. }
  split; [|done].
  intros apiKey ingestURL serviceName. eexists. split; [reflexivity|]. done.
Qed.

Lemma upload_without_budget_witness :
  uploadWithRetries (always 200 "") (testStorage 0) =
    (Err (fmt_Errorf_dw "upload failed after %d attempts: %w" 0 None), [])
  /\ HTTPStorage_Upload testOS (always 200 "") (testStorage 0) "cpu.pprof" =
       (Err (fmt_Errorf_dw "upload failed after %d attempts: %w" 0 None), []).
Proof.
  destruct (upload_without_budget testOS (always 200 "") (testStorage 0) "cpu.pprof")
    as (H1 & H2 & _).
  - simpl. lia.
  - split; [exact H1|]. apply (H2 []). reflexivity.
Defined.

(** C10 as stated fails for a negative budget: no attempt is made, but the
    error does not read "after 0 attempts". *)
Lemma upload_negative_budget_message :
  exists e,
    uploadWithRetries (always 200 "") (testStorage (-1)) = (Err e, [])
    /\ Error e = "upload failed after -1 attempts: %!w(<nil>)"
    /\ Error e <> "upload failed after 0 attempts: %!w(<nil>)".
Proof.
  eexists. split; [reflexivity|]. split; [reflexivity|]. discriminate.
Qed.

(** ** Metadata delivery *)

Section SendLoop.

Variable net : network.
Variable m : metadataClient.

(** Whatever made the request fail, the loop sleeps and goes round again. *)
Lemma sendLoop_failure r a last err :
  sendRequest (net a) = Some err ->
  sendLoop net m (S r) (Z.of_nat a) last =
    ((sendLoop net m r (Z.of_nat (S a)) (Some err)).1,
     Attempt (Z.of_nat a) :: Sleep (metadataBackoff (Z.of_nat a))
       :: (sendLoop net m r (Z.of_nat (S a)) (Some err)).2).
Proof.
  intros H. simpl. rewrite Nat2Z.id, H.
  replace (Z.of_nat a + 1)%Z with (Z.of_nat (S a)) by lia.
  by destruct (sendLoop _ _ _ _ _).
Qed.

Lemma sendLoop_success r a last :
  sendRequest (net a) = None ->
  sendLoop net m (S r) (Z.of_nat a) last = (None, [Attempt (Z.of_nat a)]).
Proof. intros H. simpl. by rewrite Nat2Z.id, H. Qed.

Lemma sendLoop_all_fail n a last :
  (forall k, (a <= k < a + n)%nat -> sendRequest (net k) <> None) ->
  exists t,
    sendLoop net m n (Z.of_nat a) last =
      (Some (fmt_Errorf_dw "failed to send metadata after %d attempts: %w"
               (retries m) (lastFailure net a n last)), t)
    /\ attempts t = n.
Proof.
  revert a last. induction n as [|n IH]; intros a last Hfail.
  - by exists [].
  - destruct (sendRequest (net a)) as [err|] eqn:E; [|by destruct (Hfail a); [lia|]].
    destruct (IH (S a) (Some err)) as (t & Ht & Hn).
    { intros k Hk. apply Hfail. lia. }
    rewrite (sendLoop_failure _ _ _ err E), Ht.
    exists (Attempt (Z.of_nat a) :: Sleep (metadataBackoff (Z.of_nat a)) :: t).
    split; [|simpl; by rewrite Hn].
    simpl. do 3 f_equal. destruct n as [|n']; simpl.
    + by rewrite Nat.add_0_r.
    + do 2 f_equal. lia.
Qed.

Lemma sendLoop_first_success n r a last :
  (forall k, (a <= k < a + n)%nat -> sendRequest (net k) <> None) ->
  sendRequest (net (a + n)) = None ->
  exists t, sendLoop net m (n + S r) (Z.of_nat a) last = (None, t) /\ attempts t = S n.
Proof.
  revert a last. induction n as [|n IH]; intros a last Hfail Hok.
  - rewrite Nat.add_0_r in Hok. simpl plus. rewrite (sendLoop_success _ _ _ Hok).
    by eexists.
  - destruct (sendRequest (net a)) as [err|] eqn:E; [|by destruct (Hfail a); [lia|]].
    destruct (IH (S a) (Some err)) as (t & Ht & Hn).
    { intros k Hk. apply Hfail. lia. }
    { by replace (S a + n)%nat with (a + S n)%nat by lia. }
    change (S n + S r)%nat with (S (n + S r)).
    rewrite (sendLoop_failure _ _ _ err E), Ht.
    eexists. split; [reflexivity|]. simpl. by rewrite Hn.
Qed.

(** While the requests fail the trace is request, sleep, request, sleep:
    no request without the sleep after it, the last one included. *)
Lemma sendLoop_all_fail_trace n a last :
  (forall k, (a <= k < a + n)%nat -> sendRequest (net k) <> None) ->
  (sendLoop net m n (Z.of_nat a) last).2 = failedSends a n.
Proof.
  revert a last. induction n as [|n IH]; intros a last Hfail; [done|].
  destruct (sendRequest (net a)) as [err|] eqn:E; [|by destruct (Hfail a); [lia|]].
  rewrite (sendLoop_failure _ _ _ err E). simpl.
  rewrite IH; [done|]. intros k Hk. apply Hfail. lia.
Qed.

(** The request that succeeds ends the trace: no sleep follows it. *)
Lemma sendLoop_first_success_trace n r a last :
  (forall k, (a <= k < a + n)%nat -> sendRequest (net k) <> None) ->
  sendRequest (net (a + n)) = None ->
  (sendLoop net m (n + S r) (Z.of_nat a) last).2
    = failedSends a n ++ [Attempt (Z.of_nat (a + n))].
Proof.
  revert a last. induction n as [|n IH]; intros a last Hfail Hok.
  - rewrite Nat.add_0_r in Hok. simpl plus. rewrite (sendLoop_success _ _ _ Hok).
    simpl. by rewrite Nat.add_0_r.
  - destruct (sendRequest (net a)) as [err|] eqn:E; [|by destruct (Hfail a); [lia|]].
    change (S n + S r)%nat with (S (n + S r)).
    rewrite (sendLoop_failure _ _ _ err E). simpl.
    rewrite IH.
    + by replace (S a + n)%nat with (a + S n)%nat by lia.
    + intros k Hk. apply Hfail. lia.
    + by replace (S a + n)%nat with (a + S n)%nat by lia.
Qed.

End SendLoop.

Lemma attempts_failedSends a n : attempts (failedSends a n) = n.
Proof. revert a. induction n as [|n IH]; intros a; [done|]. simpl. by rewrite IH. Qed.

Lemma sleeps_failedSends a n :
  sleeps (failedSends a n) = map (fun k => metadataBackoff (Z.of_nat (a + k))) (seq 0 n).
Proof.
  revert a. induction n as [|n IH]; intros a; [done|]. simpl.
  rewrite IH, Nat.add_0_r. f_equal.
  rewrite <- seq_shift, map_map. apply map_ext. intros k. do 2 f_equal. lia.
Qed.

(** C6, amended.  Metadata delivery keeps a retry counter of its own (budget
    3 for the client the profiler builds) but does not classify failures: a
    response outside 2xx is one kind of failure whatever its status, 401 and
    403 included, and every failed request, like every transport failure, is
    followed by a sleep and retried while the budget lasts.  When every
    request fails, exactly budget-many attempts are made, each followed by
    its backoff sleep, the last one too, and the error wraps the last
    failure; the first 2xx response ends the delivery with success, after
    one sleep for each failed request before it and none after it. *)
Theorem metadata_retries_every_failure os net m metadata parsed :
  url_Parse os (ingestURL m) = inr parsed ->
  plainRemote parsed = false ->
  ((forall k, (k < Z.to_nat (retries m))%nat -> sendRequest (net k) <> None) ->
     exists t,
       sendMetadata os net m metadata =
         (Some (fmt_Errorf_dw "failed to send metadata after %d attempts: %w" (retries m)
                  (lastFailure net 0 (Z.to_nat (retries m)) None)), t)
       /\ attempts t = Z.to_nat (retries m)
       /\ t = failedSends 0 (Z.to_nat (retries m))
       /\ sleeps t
          = map (fun k => metadataBackoff (Z.of_nat k)) (seq 0 (Z.to_nat (retries m))))
  /\ (forall n, (n < Z.to_nat (retries m))%nat ->
        (forall k, (k < n)%nat -> sendRequest (net k) <> None) ->
        sendRequest (net n) = None ->
        exists t,
          sendMetadata os net m metadata = (None, t)
          /\ attempts t = S n
          /\ t = failedSends 0 n ++ [Attempt (Z.of_nat n)]
          /\ sleeps t = map (fun k => metadataBackoff (Z.of_nat k)) (seq 0 n))
  /\ (forall resp, (StatusCode resp < 200 \/ 300 <= StatusCode resp)%Z ->
        sendRequest (DoReturns resp)
          = Some (fmt_Errorf_d "unexpected status code: %d" (StatusCode resp)))
  /\ (forall url key, retries (newMetadataClient url key) = 3%Z).
Proof.
  intros Hparse Hscheme. unfold sendMetadata. rewrite Hparse, Hscheme.
  split; [|split; [|split]].
  - intros Hfail.
    assert (Hfail' : forall k, (0 <= k < 0 + Z.to_nat (retries m))%nat ->
                       sendRequest (net k) <> None)
      by (intros k Hk; apply Hfail; lia).
    destruct (sendLoop_all_fail net m (Z.to_nat (retries m)) 0 None Hfail')
      as (t & Ht & Hn).
    pose proof (sendLoop_all_fail_trace net m (Z.to_nat (retries m)) 0 None Hfail') as Htr.
    change (Z.of_nat 0) with 0%Z in Ht, Htr. rewrite Ht in Htr. simpl in Htr.
    exists t. split; [done|]. split; [done|]. split; [done|].
    rewrite Htr. apply (sleeps_failedSends 0).
  - intros n Hn Hfail Hok.
    assert (Hfail' : forall k, (0 <= k < 0 + n)%nat -> sendRequest (net k) <> None)
      by (intros k Hk; apply Hfail; lia).
    replace (Z.to_nat (retries m)) with (n + S (Z.to_nat (retries m) - S n))%nat by lia.
    destruct (sendLoop_first_success net m n (Z.to_nat (retries m) - S n) 0 None Hfail' Hok)
      as (t & Ht & Hatt).
    pose proof (sendLoop_first_success_trace net m n (Z.to_nat (retries m) - S n) 0 None
                  Hfail' Hok) as Htr.
    change (Z.of_nat 0) with 0%Z in Ht, Htr. rewrite Ht in Htr. simpl in Htr.
    exists t. split; [done|]. split; [done|]. split; [done|].
    rewrite Htr, sleeps_app. simpl. rewrite app_nil_r. apply (sleeps_failedSends 0).
  - intros resp Hcode. simpl.
    destruct (Z.ltb_spec (StatusCode resp) 200); [done|].
    destruct (Z.geb_spec (StatusCode resp) 300); [done|lia].
  - done.
Qed.

Lemma metadata_retries_every_failure_witness :
  exists t,
    sendMetadata testOS (always 500 "") (newMetadataClient "https://api.pprofio.com" "test-key")
      {[ "service" := "test-service" ]} =
      (Some (fmt_Errorf_dw "failed to send metadata after %d attempts: %w" 3
               (Some (fmt_Errorf_d "unexpected status code: %d" 500))), t)
    /\ attempts t = 3%nat
    /\ t = [Attempt 0; Sleep (100 * Millisecond); Attempt 1; Sleep (200 * Millisecond);
            Attempt 2; Sleep (400 * Millisecond)]
    /\ sleeps t = [100 * Millisecond; 200 * Millisecond; 400 * Millisecond]%Z.
Proof.
  destruct (metadata_retries_every_failure testOS (always 500 "")
              (newMetadataClient "https://api.pprofio.com" "test-key")
              {[ "service" := "test-service" ]}
              {| Scheme := "https"; Host := "localhost" |}) as (H & _).
  - reflexivity.
  - reflexivity.
  - apply H. intros k _. discriminate.
Defined.

(** C6 as stated fails: a metadata endpoint that answers 401 to every
    request is asked three times, with a sleep after each refusal. *)
Lemma metadata_retries_authentication_failure :
  exists e t,
    sendMetadata testOS (always 401 "") (newMetadataClient "https://api.pprofio.com" "test-key")
      {[ "service" := "test-service" ]} = (Some e, t)
    /\ attempts t = 3%nat
    /\ attempts t <> 1%nat
    /\ sleeps t = [(100 * Millisecond)%Z; (200 * Millisecond)%Z; (400 * Millisecond)%Z].
Proof.
  eexists _, _. split; [reflexivity|]. split; [reflexivity|]. split; [simpl; lia|reflexivity].
Qed.

(** ** Configuration *)

Lemma validate_ok_iff c :
  (Config.validate c).2 = None <->
  Config.APIKey c <> "" /\ Config.IngestURL c <> ""
  /\ Config.Storage c <> None /\ Config.ServiceName c <> "".
Proof.
  unfold Config.validate.
  destruct (decide (Config.APIKey c = "")) as [E1|E1];
    [rewrite bool_decide_eq_true_2 by done; simpl;
       split; [discriminate|intros (? & ? & ? & ?); done]
    |rewrite bool_decide_eq_false_2 by done].
  destruct (decide (Config.IngestURL c = "")) as [E2|E2];
    [rewrite bool_decide_eq_true_2 by done; simpl;
       split; [discriminate|intros (? & ? & ? & ?); done]
    |rewrite bool_decide_eq_false_2 by done].
  destruct (decide (Config.Storage c = None)) as [E3|E3];
    [rewrite bool_decide_eq_true_2 by done; simpl;
       split; [discriminate|intros (? & ? & ? & ?); done]
    |rewrite bool_decide_eq_false_2 by done].
  destruct (decide (Config.ServiceName c = "")) as [E4|E4];
    [rewrite bool_decide_eq_true_2 by done; simpl;
       split; [discriminate|intros (? & ? & ? & ?); done]
    |rewrite bool_decide_eq_false_2 by done].
  simpl. split; [intros _; done|done].
Qed.

Lemma newProfiler_invalid c rt err :
  (Config.validate c).2 = Some err ->
  newProfiler c rt = (Err (fmt_Errorf_w "invalid configuration: %w" (Some err)), rt).
Proof.
  intros H. unfold newProfiler. destruct (Config.validate c) as [c' [e|]]; simpl in H.
  - by injection H as ->.
  - done.
Qed.

(** C7, amended.  With local file storage, as with every output other than
    the stdout mode, the identity fields are not optional: [validate]
    succeeds exactly when API key, ingest URL, storage and service name are
    all present, whatever the storage is.  A missing field is a
    configuration error that the constructors return at once, wrapped as
    "invalid configuration", together with no profiler. *)
Theorem identity_required_outside_stdout_mode c rt :
  Config.OutputToStdout c = false ->
  ((Config.validate c).2 = None <->
     Config.APIKey c <> "" /\ Config.IngestURL c <> ""
     /\ Config.Storage c <> None /\ Config.ServiceName c <> "")
  /\ (forall err, (Config.validate c).2 = Some err ->
        newProfiler c rt = (Err (fmt_Errorf_w "invalid configuration: %w" (Some err)), rt))
  /\ (Config.APIKey c = "" ->
        New c rt = (Err (fmt_Errorf_w "invalid configuration: %w"
                           (Some (errors_New "APIKey is required"))), rt))
  /\ (Config.APIKey c <> "" -> Config.IngestURL c = "" ->
        New c rt = (Err (fmt_Errorf_w "invalid configuration: %w"
                           (Some (errors_New "IngestURL is required"))), rt)).
Proof.
  intros Hmode. split; [apply validate_ok_iff|]. split; [apply newProfiler_invalid|].
  split.
  - intros HKey. unfold New. apply newProfiler_invalid.
    unfold Config.validate. simpl. by rewrite bool_decide_eq_true_2.
  - intros HKey HURL. unfold New. apply newProfiler_invalid.
    unfold Config.validate. simpl.
    rewrite bool_decide_eq_false_2 by done. by rewrite bool_decide_eq_true_2.
Qed.

Lemma identity_required_outside_stdout_mode_witness :
  New fileOnlyConfig freshRuntime =
    (Err (fmt_Errorf_w "invalid configuration: %w" (Some (errors_New "APIKey is required"))),
     freshRuntime).
Proof.
  destruct (identity_required_outside_stdout_mode fileOnlyConfig freshRuntime)
    as (_ & _ & H & _).
  - reflexivity.
  - apply H. reflexivity.
Defined.

(** C7 as stated fails for local file storage: a configuration that stores
    to a local directory and leaves API key and ingest URL out is rejected
    by [validate], and no profiler is built from it. *)
Lemma file_storage_needs_identity :
  (Config.validate fileOnlyConfig).2 = Some (errors_New "APIKey is required")
  /\ (Config.validate fileOnlyConfig).2 <> None
  /\ (newProfiler fileOnlyConfig freshRuntime).1 =
       Err (fmt_Errorf_w "invalid configuration: %w" (Some (errors_New "APIKey is required"))).
Proof. split; [reflexivity|]. split; [discriminate|reflexivity]. Qed.



(** ** Handing a profile over: [uploadProfile] *)

Lemma records_slept a : records (slept a) = [].
Proof. unfold slept. by destruct (a >? 0)%Z. Qed.

(** The upload loop hands no metadata to anybody. *)
Lemma records_uploadLoop net s remaining attempt last :
  records (uploadLoop net s remaining attempt last).2 = [].
Proof.
  revert attempt last. induction remaining as [|r IH]; intros attempt last; [done|].
  simpl.
  assert (Hgo : forall e,
    records (let '(res, t) := uploadLoop net s r (attempt + 1) (Some e) in
             (res, slept attempt ++ Attempt attempt :: t)).2 = []).
  { intros e. specialize (IH (attempt + 1)%Z (Some e)).
    destruct (uploadLoop net s r (attempt + 1) (Some e)) as [res t]. simpl in *.
    by rewrite records_app, records_slept. }
  assert (Hstop : records (slept attempt ++ [Attempt attempt]) = []).
  { by rewrite records_app, records_slept. }
  destruct (net (Z.to_nat attempt)) as [err|err|resp]; [apply Hgo| |].
  - destruct (Client s); [apply Hgo|exact Hstop].
  - destruct (Client s); [|exact Hstop].
    destruct ((StatusCode resp =? 401)%Z || (StatusCode resp =? 403)%Z); [exact Hstop|].
    destruct (retryable (StatusCode resp)); [apply Hgo|].
    destruct ((StatusCode resp <? 200)%Z || (StatusCode resp >=? 300)%Z); [exact Hstop|].
    destruct (Body resp); [apply Hgo|exact Hstop].
Qed.

Lemma records_Storage_Upload os net storage filePath :
  records (Storage_Upload os net storage filePath).2 = [].
Proof.
  destruct storage as [s|s| |upload]; simpl; try done.
  unfold HTTPStorage_Upload. destruct (prepare os s filePath); try done.
  apply records_uploadLoop.
Qed.

(** The loop over the tags is a union in which the tags win. *)
Lemma addTags_union (tags metadata : gmap string string) :
  addTags tags metadata = tags ∪ metadata.
Proof.
  unfold addTags.
  apply (map_fold_weak_ind (fun r (m : gmap string string) => r = m ∪ metadata)).
  - by rewrite (left_id_L ∅ (∪)).
  - intros k v m r Hk ->. by rewrite insert_union_l.
Qed.

(** What the record says about the profile when the response could be
    decoded: the decoded fields, not the arguments of [uploadProfile]. *)
Lemma metadataRecord_lookup now p response :
  Config.Tags (config p) !! "profile_url" = None ->
  Config.Tags (config p) !! "type" = None ->
  metadataRecord now p response !! "profile_url" = Some (ProfileURL response)
  /\ metadataRecord now p response !! "type" = Some (Type_ response).
Proof.
  intros Hurl Htype. unfold metadataRecord. rewrite addTags_union.
  split; (rewrite lookup_union_r by done); by simplify_map_eq.
Qed.

(** C5: the code at the failing input.  When the storage backend returns a
    locator that is not a JSON text, and the three backends of the package
    return a URL, a file path and the word "stdout", [uploadProfile] fails
    with "failed to parse upload response" and neither the dispatcher nor
    stdout gets any metadata record. *)
Theorem uploadProfile_rejects_plain_locator
    os uploadNet metadataNet now p storage filePath kind locator t err :
  Config.Storage (config p) = Some storage ->
  Storage_Upload os uploadNet storage filePath = (Ok locator, t) ->
  json_Unmarshal os locator = inl err ->
  uploadProfile os uploadNet metadataNet now p filePath kind =
    (Err (fmt_Errorf_w "failed to parse upload response: %w" (Some err)), t)
  /\ records (uploadProfile os uploadNet metadataNet now p filePath kind).2 = [].
Proof.
  intros Hstorage Hupload Hjson. unfold uploadProfile.
  rewrite Hstorage, Hupload, Hjson. split; [done|]. simpl.
  pose proof (records_Storage_Upload os uploadNet storage filePath) as H.
  by rewrite Hupload in H.
Qed.

Lemma uploadProfile_rejects_plain_locator_witness :
  uploadProfile testOS (always 200 "https://storage.pprofio.com/profiles/abc123.pprof")
    (always 200 "") 1609459200
    (testProfiler (Some (HTTP (testStorage 3)))) "cpu.pprof" "cpu" =
    (Err (fmt_Errorf_w "failed to parse upload response: %w"
            (Some (errors_New "invalid character looking for beginning of value"))),
     [Attempt 0])
  /\ records (uploadProfile testOS
                (always 200 "https://storage.pprofio.com/profiles/abc123.pprof")
                (always 200 "") 1609459200
                (testProfiler (Some (HTTP (testStorage 3)))) "cpu.pprof" "cpu").2 = [].
Proof.
  apply (uploadProfile_rejects_plain_locator testOS _ _ _ _ (HTTP (testStorage 3)) _ _
           "https://storage.pprofio.com/profiles/abc123.pprof").
  - reflexivity.
  - reflexivity.
  - reflexivity.
Defined.

(** ** The span aggregator *)

Lemma processCustomSpans_pass_Parked schedule a :
  fold_left processCustomSpans_pass schedule (Parked a) = Parked a.
Proof. induction schedule as [|c schedule IH]; [done|]. exact IH. Qed.

Lemma receiveSpan_parks a span :
  spans a = ∅ -> spansLock a = false ->
  receiveSpan a span =
    ({| spans := {[ Name span := [span] ]}; spansLock := true; handed := handed a |}, true).
Proof.
  intros Hspans Hlock. unfold receiveSpan. rewrite Hlock. simpl.
  rewrite Hspans, lookup_empty. simpl. by rewrite insert_empty.
Qed.

Lemma nothingHanded_pass st c : nothingHanded st -> nothingHanded (processCustomSpans_pass st c).
Proof.
  intros [Hhanded Hst]. destruct st as [a|a|a]; [|done|done].
  destruct Hst as [Hspans Hlock]. simpl in Hhanded.
  destruct c as [span| | |]; simpl.
  - rewrite (receiveSpan_parks a span Hspans Hlock). by split.
  - unfold flushSpans. rewrite Hlock, Hspans. simpl.
    rewrite map_size_empty. simpl. by split.
  - by split.
  - by split.
Qed.

Lemma nothingHanded_run schedule st :
  nothingHanded st -> nothingHanded (fold_left processCustomSpans_pass schedule st).
Proof.
  revert st. induction schedule as [|c schedule IH]; intros st H; [done|].
  simpl. apply IH. by apply nothingHanded_pass.
Qed.

(** The first span the goroutine receives parks it, whatever follows. *)
Lemma first_span_parks span schedule :
  processCustomSpans_run (caseSpan span :: schedule) =
    Parked {| spans := {[ Name span := [span] ]}; spansLock := true; handed := [] |}.
Proof.
  unfold processCustomSpans_run. simpl. apply processCustomSpans_pass_Parked.
Qed.

(** C9: the code on every schedule.  The first span the goroutine takes from
    the queue is appended and then parks the goroutine on its own lock for
    good, whatever the scheduler offers afterwards: spans, ticks, the stop
    signal.  So no snapshot is ever handed over, and of all the spans
    accepted into the queue only that first one is in a bucket. *)
Theorem spans_never_reach_a_snapshot :
  (forall schedule, handed (aggregatorOf (processCustomSpans_run schedule)) = [])
  /\ (forall span schedule,
        processCustomSpans_run (caseSpan span :: schedule) =
          Parked {| spans := {[ Name span := [span] ]}; spansLock := true; handed := [] |})
  /\ (forall span schedule name,
        bucket (aggregatorOf (processCustomSpans_run (caseSpan span :: schedule))) name =
          if decide (name = Name span) then [span] else []).
Proof.
  split; [|split; [exact first_span_parks|]].
  - intros schedule. apply (nothingHanded_run schedule (Selecting newAggregator)).
    by split.
  - intros span schedule name. rewrite first_span_parks. unfold bucket. simpl.
    destruct (decide (name = Name span)) as [->|E].
    + by rewrite lookup_singleton_eq.
    + by rewrite lookup_singleton_ne.
Qed.

(** Two spans of one name accepted into the queue, then a flush tick: the
    second span is in no bucket and nothing was flushed. *)
Lemma two_spans_then_flush :
  trySend (trySend [] spanA) spanB = [spanA; spanB]
  /\ processCustomSpans_run [caseSpan spanA; caseSpan spanB; caseTick] =
       Parked {| spans := {[ "test-operation" := [spanA] ]}; spansLock := true; handed := [] |}.
Proof. split; [reflexivity|]. apply (first_span_parks spanA). Qed.

(** ** The lifecycle *)

Lemma launched_stopCh p ctx g :
  g ∈ launched p ctx -> g_stopCh g = stopCh p /\ isParked g = false.
Proof.
  unfold launched. cbv beta zeta. rewrite !elem_of_app.
  intros [H|[H|[H|[H|[H|H]]]]];
    match type of H with
    | _ ∈ (if ?b then _ else _) => destruct b
    end;
    solve [ by apply elem_of_nil in H
          | apply list_elem_of_singleton in H; by subst g ].
Qed.


Lemma start_idle p ctx rt :
  initialized p = false ->
  exists p' rt',
    start p ctx rt = (None, p', rt')
    /\ initialized p' = true /\ stopCh p' = stopCh p /\ config p' = config p
    /\ chans rt' = chans rt
    /\ goroutines rt' = goroutines rt ++ launched p ctx.
Proof. intros H. unfold start. rewrite H. by eexists _, _. Qed.

Lemma start_running p ctx rt :
  initialized p = true ->
  start p ctx rt = (Some (errors_New "profiler already started"), p, rt).
Proof. intros H. unfold start. by rewrite H. Qed.

Lemma stop_idle p rt : initialized p = false -> stop p rt = Some (p, rt).
Proof. intros H. unfold stop. by rewrite H. Qed.

(** When [stop] returns it has closed the channel, and the profiler keeps
    that very channel. *)
Lemma stop_running p rt p' rt' :
  initialized p = true ->
  (stopCh p < length (chans rt))%nat ->
  stop p rt = Some (p', rt') ->
  initialized p' = false /\ stopCh p' = stopCh p /\ config p' = config p
  /\ isClosed rt' (stopCh p) = true
  /\ length (chans rt') = length (chans rt).
Proof.
  intros Hinit Hlen. unfold stop. rewrite Hinit. simpl.
  destruct (isClosed rt (stopCh p)) eqn:Hclosed.
  - unfold wg_Wait. destruct (forallb _ _); [|done].
    intros [= <- <-]. by repeat split.
  - unfold wg_Wait. destruct (forallb _ _); [|done].
    intros [= <- <-]. repeat split; simpl.
    + unfold isClosed. simpl. by rewrite list_lookup_insert_eq.
    + by rewrite length_insert.
Qed.

(** C1: the code at the failing input.  On a profiler fresh from its
    constructor, [Start], [Stop], [Start] all go through and the second
    [Start] reports success; but where the first [Start] launched its
    goroutines with the stop case of their [select] not ready, the second
    launches them on the same channel, which [Stop] has closed and nothing
    has replaced: their stop case is ready before any further [Stop]. *)
Theorem restart_keeps_closed_stopCh p ctx1 ctx2 rt p1 rt1 p2 rt2 :
  initialized p = false ->
  chans rt !! stopCh p = Some false ->
  start p ctx1 rt = (None, p1, rt1) ->
  stop p1 rt1 = Some (p2, rt2) ->
  (forall g ticked, g ∈ launched p ctx1 -> ready rt1 g ticked caseStop = false)
  /\ exists p3 rt3,
       start p2 ctx2 rt2 = (None, p3, rt3)
       /\ initialized p3 = true
       /\ stopCh p3 = stopCh p
       /\ isClosed rt3 (stopCh p3) = true
       /\ goroutines rt3 = goroutines rt2 ++ launched p2 ctx2
       /\ forall g ticked, g ∈ launched p2 ctx2 -> ready rt3 g ticked caseStop = true.
Proof.
  intros Hidle Hopen Hstart Hstop.
  destruct (start_idle p ctx1 rt Hidle) as (p1' & rt1' & E & Hi1 & Hs1 & Hc1 & Hch1 & Hg1).
  rewrite Hstart in E. injection E as <- <-.
  assert (Hlen : (stopCh p1 < length (chans rt1))%nat).
  { rewrite Hs1, Hch1. by eapply lookup_lt_Some. }
  destruct (stop_running p1 rt1 p2 rt2 Hi1 Hlen Hstop) as (Hi2 & Hs2 & Hc2 & Hcl2 & Hl2).
  destruct (start_idle p2 ctx2 rt2 Hi2) as (p3 & rt3 & E3 & Hi3 & Hs3 & Hc3 & Hch3 & Hg3).
  split.
  - intros g ticked Hg. apply launched_stopCh in Hg as [Hg _].
    unfold ready, isClosed. rewrite Hg, Hch1, Hopen. simpl. apply andb_false_r.
  - exists p3, rt3. split; [done|]. split; [done|].
    assert (Hclosed3 : isClosed rt3 (stopCh p) = true).
    { unfold isClosed in *. rewrite Hch3. by rewrite Hs1 in Hcl2. }
    split; [congruence|]. split; [by rewrite Hs3, Hs2, Hs1|]. split; [done|].
    intros g ticked Hg. apply launched_stopCh in Hg as [Hg Hpark].
    unfold ready. rewrite Hpark, Hg, Hs2, Hs1, Hclosed3. done.
Qed.

Lemma newProfiler_test storage :
  newProfiler (testConfig (Some storage)) freshRuntime
    = (Ok (testProfiler (Some storage)), testRuntime).
Proof. reflexivity. Qed.

Lemma restart_keeps_closed_stopCh_witness :
  exists p1 rt1 p2 rt2,
    start (testProfiler (Some Stdout)) 0 testRuntime = (None, p1, rt1)
    /\ stop p1 rt1 = Some (p2, rt2)
    /\ exists p3 rt3,
         start p2 1 rt2 = (None, p3, rt3)
         /\ initialized p3 = true
         /\ stopCh p3 = stopCh (testProfiler (Some Stdout))
         /\ isClosed rt3 (stopCh p3) = true.
Proof.
  eexists _, _, _, _. split; [reflexivity|]. split; [reflexivity|].
  destruct (restart_keeps_closed_stopCh (testProfiler (Some Stdout)) 0 1 testRuntime
              _ _ _ _ eq_refl eq_refl eq_refl eq_refl)
    as [_ (p3 & rt3 & H1 & H2 & H3 & H4 & _)].
  exists p3, rt3. repeat split; assumption.
Defined.

(** The second cycle seen from a goroutine: the CPU collector launched by
    the second [Start] can take its stop case at once, and returns. *)
Lemma restarted_collector_returns :
  exists p1 rt1 p2 rt2 p3 rt3,
    start (testProfiler (Some Stdout)) 0 testRuntime = (None, p1, rt1)
    /\ stop p1 rt1 = Some (p2, rt2)
    /\ start p2 1 rt2 = (None, p3, rt3)
    /\ length (goroutines rt3) = 2%nat
    /\ exists rt4, schedule rt3 0 false caseStop = Some rt4
                   /\ length (goroutines rt4) = 1%nat.
Proof.
  eexists _, _, _, _, _, _. split; [reflexivity|]. split; [reflexivity|].
  split; [reflexivity|]. split; [reflexivity|].
  eexists. split; reflexivity.
Qed.

(** * Further properties of the package *)

(** ** config.go *)

(** X1.  A configuration that [validate] has accepted is complete: the
    sample interval, the capture duration and the three runtime rates are
    positive, at least one profile kind is enabled, and the identity fields,
    the storage and the tags are the ones that were given. *)
Theorem validate_completes c c' :
  Config.validate c = (c', None) ->
  (0 < Config.SampleRate c')%Z /\ (0 < Config.ProfileDuration c')%Z
  /\ (0 < Config.MemProfileRate c')%Z /\ (0 < Config.MutexFraction c')%Z
  /\ (0 < Config.BlockProfileRate c')%Z
  /\ Config.noneEnabled c' = false
  /\ Config.APIKey c' = Config.APIKey c /\ Config.IngestURL c' = Config.IngestURL c
  /\ Config.ServiceName c' = Config.ServiceName c
  /\ Config.Storage c' = Config.Storage c /\ Config.Tags c' = Config.Tags c.
Proof.
  intros H.
  assert (Hok : (Config.validate c).2 = None) by (by rewrite H).
  apply validate_ok_iff in Hok as (HKey & HURL & HStorage & HName).
  destruct c as [k u sr pd st sn tg mp mf bp cpu mem gor mut blk cus out env].
  unfold Config.validate in H. simpl in *.
  rewrite !bool_decide_eq_false_2 in H by done.
  injection H as <-. simpl.
  unfold DefaultSampleRate, DefaultProfileDuration, DefaultMemProfileRate,
    DefaultMutexFraction, DefaultBlockProfileRate, Second, Config.noneEnabled.
  simpl.
  destruct (Z.leb_spec sr 0), (Z.leb_spec pd 0), (Z.leb_spec mp 0),
    (Z.leb_spec mf 0), (Z.leb_spec bp 0);
    destruct cpu, mem, gor, mut, blk, cus; simpl; repeat split; lia || reflexivity.
Qed.

Lemma validate_completes_witness :
  (0 < Config.SampleRate (Config.validate bareConfig).1)%Z
  /\ Config.noneEnabled (Config.validate bareConfig).1 = false.
Proof.
  destruct (validate_completes bareConfig (Config.validate bareConfig).1)
    as (H1 & _ & _ & _ & _ & H2 & _).
  - reflexivity.
  - split; [exact H1|exact H2].
Defined.

(** X2.  On a configuration that needs no default, whose five numeric
    settings are positive and which enables some kind, an accepting
    [validate] changes nothing at all. *)
Theorem validate_keeps_complete c c' :
  Config.validate c = (c', None) ->
  (0 < Config.SampleRate c)%Z -> (0 < Config.ProfileDuration c)%Z ->
  (0 < Config.MemProfileRate c)%Z -> (0 < Config.MutexFraction c)%Z ->
  (0 < Config.BlockProfileRate c)%Z ->
  Config.noneEnabled c = false ->
  c' = c.
Proof.
  intros H Hsr Hpd Hmp Hmf Hbp Hkind.
  assert (Hok : (Config.validate c).2 = None) by (by rewrite H).
  apply validate_ok_iff in Hok as (HKey & HURL & HStorage & HName).
  destruct c as [k u sr pd st sn tg mp mf bp cpu mem gor mut blk cus out env].
  unfold Config.validate in H. simpl in *.
  rewrite !bool_decide_eq_false_2 in H by done.
  injection H as <-. rewrite Hkind.
  destruct (Z.leb_spec sr 0), (Z.leb_spec pd 0), (Z.leb_spec mp 0),
    (Z.leb_spec mf 0), (Z.leb_spec bp 0); try lia.
  reflexivity.
Qed.

Lemma validate_keeps_complete_witness :
  (Config.validate (DefaultConfig "test-key" "https://api.pprofio.com" "test-service")).1
    = DefaultConfig "test-key" "https://api.pprofio.com" "test-service".
Proof.
  apply (validate_keeps_complete
           (DefaultConfig "test-key" "https://api.pprofio.com" "test-service")).
  - reflexivity.
  - reflexivity.
  - reflexivity.
  - reflexivity.
  - reflexivity.
  - reflexivity.
  - reflexivity.
Defined.

(** X3.  [validate] reports the first of the four required fields that is
    missing, in the order API key, ingest URL, storage, service name, and a
    configuration it rejects is left exactly as it was: no default is
    filled in before the error. *)
Theorem validate_reports_first_missing c :
  (Config.APIKey c = "" ->
     Config.validate c = (c, Some (errors_New "APIKey is required")))
  /\ (Config.APIKey c <> "" -> Config.IngestURL c = "" ->
        Config.validate c = (c, Some (errors_New "IngestURL is required")))
  /\ (Config.APIKey c <> "" -> Config.IngestURL c <> "" -> Config.Storage c = None ->
        Config.validate c = (c, Some (errors_New "Storage is required")))
  /\ (Config.APIKey c <> "" -> Config.IngestURL c <> "" -> Config.Storage c <> None ->
        Config.ServiceName c = "" ->
        Config.validate c = (c, Some (errors_New "ServiceName is required")))
  /\ (forall err, (Config.validate c).2 = Some err -> (Config.validate c).1 = c).
Proof.
  unfold Config.validate. repeat split.
  - intros H. by rewrite bool_decide_eq_true_2.
  - intros H1 H2. rewrite bool_decide_eq_false_2 by done. by rewrite bool_decide_eq_true_2.
  - intros H1 H2 H3. rewrite !bool_decide_eq_false_2 by done.
    by rewrite bool_decide_eq_true_2.
  - intros H1 H2 H3 H4. rewrite !bool_decide_eq_false_2 by done.
    by rewrite bool_decide_eq_true_2.
  - intros err.
    destruct (bool_decide (Config.APIKey c = "")); [done|].
    destruct (bool_decide (Config.IngestURL c = "")); [done|].
    destruct (bool_decide (Config.Storage c = None)); [done|].
    destruct (bool_decide (Config.ServiceName c = "")); [done|].
    discriminate.
Qed.

Lemma validate_reports_first_missing_witness :
  Config.validate fileOnlyConfig = (fileOnlyConfig, Some (errors_New "APIKey is required")).
Proof.
  apply (proj1 (validate_reports_first_missing fileOnlyConfig)). reflexivity.
Defined.

(** X4.  [DefaultConfig] is accepted by [validate], unchanged, exactly when
    its three arguments are non-empty. *)
Theorem DefaultConfig_valid apiKey ingestURL serviceName :
  Config.validate (DefaultConfig apiKey ingestURL serviceName)
    = (DefaultConfig apiKey ingestURL serviceName, None)
  <-> apiKey <> "" /\ ingestURL <> "" /\ serviceName <> "".
Proof.
  split.
  - intros H.
    assert (Hok : (Config.validate (DefaultConfig apiKey ingestURL serviceName)).2 = None)
      by (by rewrite H).
    apply validate_ok_iff in Hok as (HKey & HURL & _ & HName). done.
  - intros (HKey & HURL & HName). unfold Config.validate. simpl.
    rewrite !bool_decide_eq_false_2 by done. reflexivity.
Qed.

Lemma DefaultConfig_valid_witness :
  Config.validate (DefaultConfig "test-key" "https://api.pprofio.com" "test-service")
    = (DefaultConfig "test-key" "https://api.pprofio.com" "test-service", None).
Proof.
  apply (proj2 (DefaultConfig_valid "test-key" "https://api.pprofio.com" "test-service")).
  split; [discriminate|]. split; discriminate.
Defined.

(** ** storage.go *)

(** One pass of the upload loop either ends it, and then with a locator only
    on a readable 2xx response, or goes round again with some last error. *)
Lemma uploadLoop_step net s r a last :
  (exists res,
     uploadLoop net s (S r) a last = (res, slept a ++ [Attempt a])
     /\ forall b, res = Ok b ->
          exists resp, net (Z.to_nat a) = DoReturns resp
                       /\ (200 <= StatusCode resp < 300)%Z /\ Body resp = inr b)
  \/ (exists e,
        uploadLoop net s (S r) a last =
          ((uploadLoop net s r (a + 1) (Some e)).1,
           slept a ++ Attempt a :: (uploadLoop net s r (a + 1) (Some e)).2)).
Proof.
  simpl.
  assert (Hgo : forall e,
    (let '(res, t) := uploadLoop net s r (a + 1) (Some e) in
     (res, slept a ++ Attempt a :: t)) =
    ((uploadLoop net s r (a + 1) (Some e)).1,
     slept a ++ Attempt a :: (uploadLoop net s r (a + 1) (Some e)).2)).
  { intros e. by destruct (uploadLoop net s r (a + 1) (Some e)). }
  destruct (net (Z.to_nat a)) as [err|err|resp] eqn:Hnet.
  - right. eexists. apply Hgo.
  - destruct (Client s).
    + right. eexists. apply Hgo.
    + left. eexists. split; [reflexivity|]. discriminate.
  - destruct (Client s); [|left; eexists; split; [reflexivity|discriminate]].
    destruct ((StatusCode resp =? 401)%Z || (StatusCode resp =? 403)%Z);
      [left; eexists; split; [reflexivity|discriminate]|].
    destruct (retryable (StatusCode resp)); [right; eexists; apply Hgo|].
    destruct ((StatusCode resp <? 200)%Z || (StatusCode resp >=? 300)%Z) eqn:Hcode;
      [left; eexists; split; [reflexivity|discriminate]|].
    destruct (Body resp) as [err|body] eqn:Hbody; [right; eexists; apply Hgo|].
    left. eexists. split; [reflexivity|]. intros b [= <-].
    exists resp. apply orb_false_iff in Hcode as [H1 H2].
    apply Z.ltb_ge in H1. rewrite Z.geb_leb in H2. apply Z.leb_gt in H2.
    repeat split; [lia|lia|done].
Qed.

Lemma length_sleeps_slept a : (0 < a)%Z -> length (sleeps (slept a)) = 1%nat.
Proof. intros H. unfold slept. by destruct (Z.gtb_spec a 0); [|lia]. Qed.

Lemma uploadLoop_counts net s r a last :
  (0 <= a)%Z ->
  (attempts (uploadLoop net s r a last).2 <= r)%nat
  /\ length (sleeps (uploadLoop net s r a last).2) =
       (if (a =? 0)%Z then attempts (uploadLoop net s r a last).2 - 1
        else attempts (uploadLoop net s r a last).2)%nat.
Proof.
  revert a last. induction r as [|r IH]; intros a last Ha.
  { simpl. by destruct (a =? 0)%Z. }
  assert (Hslept : length (sleeps (slept a)) = if (a =? 0)%Z then 0%nat else 1%nat).
  { destruct (Z.eqb_spec a 0) as [->|]; [done|]. apply length_sleeps_slept. lia. }
  destruct (uploadLoop_step net s r a last) as [(res & -> & _)|(e & ->)]; simpl.
  - rewrite attempts_app, attempts_slept, sleeps_app, length_app, Hslept. simpl.
    split; [lia|]. by destruct (a =? 0)%Z.
  - destruct (IH (a + 1)%Z (Some e)) as [IH1 IH2]; [lia|].
    destruct (Z.eqb_spec (a + 1) 0); [lia|].
    rewrite attempts_app, attempts_slept, sleeps_app, length_app, Hslept. simpl.
    rewrite IH2. split; [lia|]. destruct (a =? 0)%Z; lia.
Qed.

(** X5.  Whatever the network and the file system do, an upload makes at
    most [Retries] delivery attempts, and it sleeps exactly once between
    two consecutive attempts: never before the first, never after the
    last. *)
Theorem upload_attempts_bounded os net s filePath :
  (attempts (HTTPStorage_Upload os net s filePath).2 <= Z.to_nat (Retries s))%nat
  /\ length (sleeps (HTTPStorage_Upload os net s filePath).2)
     = (attempts (HTTPStorage_Upload os net s filePath).2 - 1)%nat.
Proof.
  unfold HTTPStorage_Upload.
  destruct (prepare os s filePath); simpl; [|split; [lia|done]..].
  unfold uploadWithRetries.
  destruct (uploadLoop_counts net s (Z.to_nat (Retries s)) 0 None) as [H1 H2]; [lia|].
  split; [exact H1|exact H2].
Qed.

Lemma uploadLoop_Ok net s r (a : nat) last locator t :
  uploadLoop net s r (Z.of_nat a) last = (Ok locator, t) ->
  exists resp,
    net (a + attempts t - 1)%nat = DoReturns resp
    /\ (200 <= StatusCode resp < 300)%Z
    /\ Body resp = inr locator
    /\ (1 <= attempts t)%nat.
Proof.
  revert a last t. induction r as [|r IH]; intros a last t; [done|].
  destruct (uploadLoop_step net s r (Z.of_nat a) last) as [(res & -> & Hres)|(e & ->)].
  - intros [= -> <-]. destruct (Hres locator eq_refl) as (resp & Hnet & Hcode & Hbody).
    rewrite Nat2Z.id in Hnet. exists resp.
    rewrite attempts_app, attempts_slept. simpl.
    replace (a + 1 - 1)%nat with a by lia.
    split; [done|]. split; [done|]. split; [done|]. lia.
  - replace (Z.of_nat a + 1)%Z with (Z.of_nat (S a)) by lia.
    destruct (uploadLoop net s r (Z.of_nat (S a)) (Some e)) as [res t'] eqn:E.
    simpl. intros [= -> <-].
    destruct (IH (S a) (Some e) t' E) as (resp & Hnet & Hcode & Hbody & Hn).
    exists resp. rewrite attempts_app, attempts_slept. simpl.
    replace (a + S (attempts t') - 1)%nat with (S a + attempts t' - 1)%nat by lia.
    split; [done|]. split; [done|]. split; [done|]. lia.
Qed.

(** X6.  An upload reports success only for a 2xx response whose body it
    could read, and the locator it returns is that body as it came: it is
    the answer to the last attempt made, and every check before the loop had
    passed. *)
Theorem upload_success_is_a_2xx_body os net s filePath locator t :
  HTTPStorage_Upload os net s filePath = (Ok locator, t) ->
  exists resp,
    net (attempts t - 1)%nat = DoReturns resp
    /\ (200 <= StatusCode resp < 300)%Z
    /\ Body resp = inr locator
    /\ (1 <= attempts t <= Z.to_nat (Retries s))%nat
    /\ exists data, prepare os s filePath = Ok data.
Proof.
  intros H.
  pose proof (upload_attempts_bounded os net s filePath) as [Hle _].
  rewrite H in Hle. simpl in Hle.
  unfold HTTPStorage_Upload in H.
  destruct (prepare os s filePath) as [data| |]; [|done|done].
  unfold uploadWithRetries in H.
  destruct (uploadLoop_Ok net s _ 0 None locator t H) as (resp & Hnet & Hcode & Hbody & Hn).
  exists resp. split; [done|]. split; [done|]. split; [done|].
  split; [lia|]. by exists data.
Qed.

Lemma upload_success_is_a_2xx_body_witness :
  exists resp,
    failsFirst 2 500 "https://storage.pprofio.com/profile123" (3 - 1)%nat = DoReturns resp
    /\ (200 <= StatusCode resp < 300)%Z
    /\ Body resp = inr "https://storage.pprofio.com/profile123".
Proof.
  destruct (upload_success_is_a_2xx_body testOS
              (failsFirst 2 500 "https://storage.pprofio.com/profile123")
              (testStorage 3) "cpu.pprof" "https://storage.pprofio.com/profile123"
              (passes 0 3) eq_refl) as (resp & H1 & H2 & H3 & _).
  exists resp. split; [exact H1|]. split; [exact H2|exact H3].
Defined.

(** X7.  [Upload] turns a request down before anything goes over the
    network when the URL or the API key is empty, and when the URL is not an
    https one, unless the storage was built for the "local" environment, in
    which case any scheme is let through to the delivery loop. *)
Theorem upload_checks_before_network os net s filePath :
  (URL s = "" \/ APIKey s = "" ->
     HTTPStorage_Upload os net s filePath
       = (Err (errors_New "URL and APIKey are required"), []))
  /\ (forall parsed,
        URL s <> "" -> APIKey s <> "" -> url_Parse os (URL s) = inr parsed ->
        Scheme parsed <> "https" -> Env s <> "local" ->
        HTTPStorage_Upload os net s filePath
          = (Err (errors_New "HTTPS is required for secure uploads"), []))
  /\ (forall parsed data,
        URL s <> "" -> APIKey s <> "" -> url_Parse os (URL s) = inr parsed ->
        Env s = "local" -> readAndCompressFile os filePath = Ok data ->
        HTTPStorage_Upload os net s filePath = uploadWithRetries net s).
Proof.
  unfold HTTPStorage_Upload, prepare. split; [|split].
  - intros [H|H].
    + by rewrite (bool_decide_eq_true_2 _ H).
    + rewrite (bool_decide_eq_true_2 (APIKey s = "") H). by rewrite orb_true_r.
  - intros parsed HU HK Hparse Hscheme Henv.
    rewrite !bool_decide_eq_false_2 by done. simpl. rewrite Hparse.
    by rewrite !bool_decide_eq_true_2.
  - intros parsed data HU HK Hparse Henv Hfile.
    rewrite !bool_decide_eq_false_2 by done. simpl. rewrite Hparse.
    rewrite (bool_decide_eq_false_2 (Env s <> "local")) by (intros H; by apply H).
    by rewrite andb_false_r, Hfile.
Qed.

Lemma upload_checks_before_network_witness :
  HTTPStorage_Upload testOS (always 200 "locator")
    {| URL := ""; APIKey := "test-key"; Client := None; Retries := 3; Env := "" |}
    "cpu.pprof"
  = (Err (errors_New "URL and APIKey are required"), []).
Proof.
  apply (proj1 (upload_checks_before_network testOS (always 200 "locator")
                  {| URL := ""; APIKey := "test-key"; Client := None; Retries := 3;
                     Env := "" |} "cpu.pprof")).
  left. reflexivity.
Defined.

Lemma uploadLoop_unexpected net s c r a last resp :
  Client s = Some c ->
  net a = DoReturns resp ->
  StatusCode resp <> 401%Z -> StatusCode resp <> 403%Z ->
  retryable (StatusCode resp) = false ->
  (StatusCode resp < 200 \/ 300 <= StatusCode resp)%Z ->
  uploadLoop net s (S r) (Z.of_nat a) last =
    (Err (fmt_Errorf_d "unexpected status code: %d" (StatusCode resp)),
     slept (Z.of_nat a) ++ [Attempt (Z.of_nat a)]).
Proof.
  intros HClient Hnet H401 H403 Hretry Hcode. simpl.
  rewrite Nat2Z.id, Hnet, HClient, Hretry.
  destruct (Z.eqb_spec (StatusCode resp) 401); [done|].
  destruct (Z.eqb_spec (StatusCode resp) 403); [done|]. simpl.
  destruct (Z.ltb_spec (StatusCode resp) 200); [done|].
  destruct (Z.geb_spec (StatusCode resp) 300); [done|lia].
Qed.

(** X8.  A response whose status is neither 2xx, nor 401 or 403, nor 429 or
    5xx ends the delivery with "unexpected status code" on the spot, also
    after retries and with budget left: after [n] retried attempts it is
    attempt number [n + 1] and the last. *)
Theorem upload_stops_on_unexpected_status os net s c filePath data (n : nat) resp :
  prepare os s filePath = Ok data ->
  Client s = Some c ->
  (Z.of_nat n < Retries s)%Z ->
  (forall k, (k < n)%nat ->
     exists r, net k = DoReturns r /\ retryable (StatusCode r) = true) ->
  net n = DoReturns resp ->
  StatusCode resp <> 401%Z -> StatusCode resp <> 403%Z ->
  retryable (StatusCode resp) = false ->
  (StatusCode resp < 200 \/ 300 <= StatusCode resp)%Z ->
  exists t,
    HTTPStorage_Upload os net s filePath =
      (Err (fmt_Errorf_d "unexpected status code: %d" (StatusCode resp)), t)
    /\ attempts t = S n.
Proof.
  intros Hprep HClient Hn Hfail Hnet H401 H403 Hretry Hcode.
  rewrite (HTTPStorage_Upload_prepared _ _ _ _ _ Hprep). unfold uploadWithRetries.
  replace (Z.to_nat (Retries s)) with (n + S (Z.to_nat (Retries s) - S n))%nat by lia.
  destruct (uploadLoop_passes net s c HClient n (S (Z.to_nat (Retries s) - S n)) 0 None)
    as (last' & Hloop).
  { intros k Hk. apply Hfail. lia. }
  change (Z.of_nat 0) with 0%Z in Hloop. rewrite Hloop, Nat.add_0_l.
  rewrite (uploadLoop_unexpected net s c _ n last' resp) by done.
  eexists. split; [reflexivity|]. simpl.
  rewrite attempts_app, attempts_passes, attempts_app, attempts_slept. simpl. lia.
Qed.

Lemma upload_stops_on_unexpected_status_witness :
  exists t,
    HTTPStorage_Upload testOS (always 404 "") (testStorage 3) "cpu.pprof" =
      (Err (fmt_Errorf_d "unexpected status code: %d" 404), t)
    /\ attempts t = 1%nat.
Proof.
  apply (upload_stops_on_unexpected_status testOS (always 404 "") (testStorage 3)
           {| Timeout := 30 * Second |} "cpu.pprof" [] 0
           {| StatusCode := 404; Body := inr "" |}).
  - reflexivity.
  - reflexivity.
  - simpl. lia.
  - intros k Hk. lia.
  - reflexivity.
  - discriminate.
  - discriminate.
  - reflexivity.
  - right. simpl. lia.
Defined.

Lemma uploadLoop_transport net s c (errs : nat -> error) r a last :
  Client s = Some c ->
  (forall k, (a <= k < a + r)%nat -> net k = DoFails (errs k)) ->
  uploadLoop net s r (Z.of_nat a) last =
    (Err (fmt_Errorf_dw "upload failed after %d attempts: %w" (Retries s)
            (match r with
             | O => last
             | S r' => Some (fmt_Errorf_w "request failed: %w" (Some (errs (a + r')%nat)))
             end)),
     passes (Z.of_nat a) r).
Proof.
  intros HClient. revert a last. induction r as [|r IH]; intros a last Hnet; [done|].
  simpl. rewrite Nat2Z.id, (Hnet a) by lia. rewrite HClient.
  replace (Z.of_nat a + 1)%Z with (Z.of_nat (S a)) by lia.
  rewrite IH by (intros k Hk; apply Hnet; lia).
  f_equal. do 2 f_equal. destruct r as [|r'].
  - by rewrite Nat.add_0_r.
  - do 4 f_equal. lia.
Qed.

(** X9.  Transport failures are retried until the budget is spent: when
    every [Client.Do] fails, the upload makes exactly [Retries] attempts and
    its error wraps "request failed" around the transport error of the last
    attempt. *)
Theorem upload_retries_transport_failures os net s c filePath data (errs : nat -> error) :
  prepare os s filePath = Ok data ->
  Client s = Some c ->
  (0 < Retries s)%Z ->
  (forall k, (k < Z.to_nat (Retries s))%nat -> net k = DoFails (errs k)) ->
  exists e t,
    HTTPStorage_Upload os net s filePath = (Err e, t)
    /\ attempts t = Z.to_nat (Retries s)
    /\ Unwrap e = Some (fmt_Errorf_w "request failed: %w"
                          (Some (errs (Z.to_nat (Retries s) - 1)%nat))).
Proof.
  intros Hprep HClient Hn Hnet.
  rewrite (HTTPStorage_Upload_prepared _ _ _ _ _ Hprep). unfold uploadWithRetries.
  pose proof (uploadLoop_transport net s c errs (Z.to_nat (Retries s)) 0 None HClient) as H.
  change (Z.of_nat 0) with 0%Z in H. rewrite H by (intros k Hk; apply Hnet; lia).
  eexists _, _. split; [reflexivity|]. split; [apply attempts_passes|].
  destruct (Z.to_nat (Retries s)) as [|r] eqn:E; [lia|]. simpl.
  by rewrite Nat.sub_0_r.
Qed.

Lemma upload_retries_transport_failures_witness :
  exists e t,
    HTTPStorage_Upload testOS (fun _ => DoFails (errors_New "connection refused"))
      (testStorage 3) "cpu.pprof" = (Err e, t)
    /\ attempts t = 3%nat
    /\ Unwrap e = Some (fmt_Errorf_w "request failed: %w"
                          (Some (errors_New "connection refused"))).
Proof.
  apply (upload_retries_transport_failures testOS
           (fun _ => DoFails (errors_New "connection refused")) (testStorage 3)
           {| Timeout := 30 * Second |} "cpu.pprof" []
           (fun _ => errors_New "connection refused")).
  - reflexivity.
  - reflexivity.
  - simpl. lia.
  - intros k _. reflexivity.
Defined.

(** X10.  A [FileStorage] that [NewFileStorage] has built never fails an
    upload for want of a directory, and what an upload returns on success is
    the base name of the file joined to the directory the storage was built
    with.  An empty directory name is refused by the constructor before the
    file system is asked anything. *)
Theorem file_storage_returns_target os mkdirAll directory fs filePath :
  NewFileStorage mkdirAll directory = Ok fs ->
  directory <> ""
  /\ Directory fs = directory
  /\ FileStorage_Upload os fs filePath <> Err (errors_New "directory is required")
  /\ (forall path, FileStorage_Upload os fs filePath = Ok path ->
        path = filepath_Join os directory (filepath_Base os filePath))
  /\ NewFileStorage mkdirAll "" = Err (errors_New "directory is required").
Proof.
  unfold NewFileStorage. intros H.
  destruct (decide (directory = "")) as [E|E];
    [by rewrite bool_decide_eq_true_2 in H|rewrite bool_decide_eq_false_2 in H by done].
  destruct (mkdirAll directory); [done|]. injection H as <-.
  split; [done|]. split; [done|]. unfold FileStorage_Upload. simpl.
  rewrite bool_decide_eq_false_2 by done.
  split; [|split; [|done]].
  - destruct (os_Open os filePath); [done|].
    destruct (os_Create os _); [done|]. by destruct (io_Copy os _ _).
  - intros path. destruct (os_Open os filePath); [done|].
    destruct (os_Create os _); [done|]. destruct (io_Copy os _ _); [done|].
    by intros [= <-].
Qed.

Lemma file_storage_returns_target_witness :
  Directory {| Directory := "/tmp/pprofio-test" |} = "/tmp/pprofio-test"
  /\ FileStorage_Upload testOS {| Directory := "/tmp/pprofio-test" |} "cpu.pprof"
     <> Err (errors_New "directory is required").
Proof.
  destruct (file_storage_returns_target testOS mkdirOk "/tmp/pprofio-test"
              {| Directory := "/tmp/pprofio-test" |} "cpu.pprof" eq_refl)
    as (_ & H1 & H2 & _).
  split; [exact H1|exact H2].
Defined.

(** [strings.Contains] finds a text wherever it stands. *)
Lemma substring_prefix (k s : string) :
  String.substring 0 (String.length k) (String.append k s) = k.
Proof.
  induction k as [|ch k IH].
  - simpl. by destruct s.
  - simpl. by rewrite IH.
Qed.

Lemma substring_infix (p k s : string) :
  String.substring (String.length p) (String.length k)
    (String.append p (String.append k s)) = k.
Proof.
  induction p as [|ch p IH].
  - change (String.append "" (String.append k s)) with (String.append k s).
    apply substring_prefix.
  - simpl. exact IH.
Qed.

Lemma strings_Contains_infix (p k s : string) :
  k <> "" -> strings_Contains (String.append p (String.append k s)) k = true.
Proof.
  intros Hk. unfold strings_Contains.
  destruct (String.index 0 k _) eqn:E; [done|].
  exfalso. apply (String.index_correct3 0 (String.length p) _ _ E Hk); [lia|].
  apply substring_infix.
Qed.

(** X11.  The type the stdout storage prints for a file is decided by the
    first keyword of the list cpu, memory or heap, goroutine, mutex, block
    that occurs anywhere in the path: a path with "cpu" in it, be it in a
    directory name, is shown as a CPU profile whatever else it holds, and a
    path with "heap" or "memory" but no "cpu" as a heap profile. *)
Theorem displayedType_first_keyword (before after : string) :
  displayedType (String.append before (String.append "cpu" after)) = "CPU Profile"
  /\ (strings_Contains (String.append before (String.append "heap" after)) "cpu" = false ->
        displayedType (String.append before (String.append "heap" after))
          = "Memory/Heap Profile")
  /\ (strings_Contains (String.append before (String.append "memory" after)) "cpu" = false ->
        displayedType (String.append before (String.append "memory" after))
          = "Memory/Heap Profile").
Proof.
  unfold displayedType. split; [|split].
  - by rewrite strings_Contains_infix.
  - intros ->. rewrite (strings_Contains_infix before "heap" after) by done.
    by rewrite orb_true_r.
  - intros ->. by rewrite (strings_Contains_infix before "memory" after).
Qed.

Lemma displayedType_first_keyword_witness :
  displayedType "/tmp/memory.pprof123" = "Memory/Heap Profile"
  /\ displayedType "/tmp/cpu-node/memory.pprof123" = "CPU Profile".
Proof.
  split.
  - apply (proj2 (proj2 (displayedType_first_keyword "/tmp/" ".pprof123"))). reflexivity.
  - apply (proj1 (displayedType_first_keyword "/tmp/" "-node/memory.pprof123")).
Defined.

(** ** metadata.go *)

(** X12.  [sendMetadata] makes no request to an ingest URL that does not
    parse, nor to one that is not https, unless the host has "localhost" or
    "127.0.0.1" somewhere in its name: such a host is sent to over any
    scheme. *)
Theorem metadata_checks_ingest_url os net m metadata :
  (forall err, url_Parse os (ingestURL m) = inl err ->
     sendMetadata os net m metadata
       = (Some (fmt_Errorf_w "invalid ingest URL: %w" (Some err)), []))
  /\ (forall parsed, url_Parse os (ingestURL m) = inr parsed ->
        Scheme parsed <> "https" ->
        strings_Contains (Host parsed) "localhost" = false ->
        strings_Contains (Host parsed) "127.0.0.1" = false ->
        sendMetadata os net m metadata
          = (Some (errors_New "HTTPS is required for ingest URL"), []))
  /\ (forall parsed before after, url_Parse os (ingestURL m) = inr parsed ->
        (Host parsed = String.append before (String.append "localhost" after)
         \/ Host parsed = String.append before (String.append "127.0.0.1" after)) ->
        sendMetadata os net m metadata = sendLoop net m (Z.to_nat (retries m)) 0 None).
Proof.
  unfold sendMetadata, plainRemote. split; [|split].
  - by intros err ->.
  - intros parsed -> Hscheme -> ->. by rewrite bool_decide_eq_true_2.
  - intros parsed before after -> [-> | ->].
    + rewrite (strings_Contains_infix before "localhost" after) by done.
      simpl. by rewrite andb_false_r.
    + rewrite (strings_Contains_infix before "127.0.0.1" after) by done.
      simpl. by rewrite andb_false_r.
Qed.

Lemma metadata_checks_ingest_url_witness :
  sendMetadata
    {| url_Parse := fun _ => inr {| Scheme := "http"; Host := "api.pprofio.com" |};
       json_Unmarshal := json_Unmarshal testOS;
       os_Open_ReadAll := os_Open_ReadAll testOS;
       gzip_Write_Close := gzip_Write_Close testOS;
       os_ReadFile := os_ReadFile testOS;
       os_Open := os_Open testOS;
       os_Create := os_Create testOS;
       io_Copy := io_Copy testOS;
       filepath_Base := filepath_Base testOS;
       filepath_Join := filepath_Join testOS |}
    (always 200 "") (newMetadataClient "http://api.pprofio.com" "test-key") ∅
  = (Some (errors_New "HTTPS is required for ingest URL"), []).
Proof.
  refine (proj1 (proj2 (metadata_checks_ingest_url _ _ _ _))
            {| Scheme := "http"; Host := "api.pprofio.com" |} _ _ _ _).
  - reflexivity.
  - discriminate.
  - reflexivity.
  - reflexivity.
Defined.

Lemma sendLoop_counts net m r a last :
  (attempts (sendLoop net m r a last).2 <= r)%nat
  /\ match (sendLoop net m r a last).1 with
     | None => (length (sleeps (sendLoop net m r a last).2) + 1)%nat
               = attempts (sendLoop net m r a last).2
     | Some _ => length (sleeps (sendLoop net m r a last).2)
                 = attempts (sendLoop net m r a last).2
     end.
Proof.
  revert a last. induction r as [|r IH]; intros a last; [by split|].
  simpl. destruct (sendRequest (net (Z.to_nat a))) as [err|]; [|simpl; split; [lia|done]].
  destruct (IH (a + 1)%Z (Some err)) as [IH1 IH2].
  destruct (sendLoop net m r (a + 1) (Some err)) as [res t]. simpl in *.
  split; [lia|]. destruct res; lia.
Qed.

(** X13.  Whatever the endpoint does, [sendMetadata] makes at most
    [retries] attempts, and it sleeps once after every attempt that failed,
    the last one included: a delivery that fails in the end has slept as
    often as it has tried, one that succeeds once less. *)
Theorem metadata_attempts_bounded os net m metadata :
  (attempts (sendMetadata os net m metadata).2 <= Z.to_nat (retries m))%nat
  /\ match (sendMetadata os net m metadata).1 with
     | None => (length (sleeps (sendMetadata os net m metadata).2) + 1)%nat
               = attempts (sendMetadata os net m metadata).2
     | Some _ => length (sleeps (sendMetadata os net m metadata).2)
                 = attempts (sendMetadata os net m metadata).2
     end.
Proof.
  unfold sendMetadata. destruct (url_Parse os (ingestURL m)); [simpl; split; [lia|done]|].
  destruct (plainRemote _); [simpl; split; [lia|done]|].
  apply sendLoop_counts.
Qed.

Lemma sendLoop_None net m r (a : nat) last t :
  sendLoop net m r (Z.of_nat a) last = (None, t) ->
  exists resp,
    net (a + attempts t - 1)%nat = DoReturns resp
    /\ (200 <= StatusCode resp < 300)%Z
    /\ (1 <= attempts t)%nat.
Proof.
  revert a last t. induction r as [|r IH]; intros a last t; [done|].
  simpl. rewrite Nat2Z.id.
  destruct (sendRequest (net a)) as [err|] eqn:Hreq.
  - replace (Z.of_nat a + 1)%Z with (Z.of_nat (S a)) by lia.
    destruct (sendLoop net m r (Z.of_nat (S a)) (Some err)) as [res t'] eqn:E.
    intros [= -> <-]. destruct (IH (S a) (Some err) t' E) as (resp & Hnet & Hcode & Hn).
    exists resp. simpl.
    replace (a + S (attempts t') - 1)%nat with (S a + attempts t' - 1)%nat by lia.
    split; [done|]. split; [done|]. lia.
  - intros [= <-]. simpl. replace (a + 1 - 1)%nat with a by lia.
    unfold sendRequest in Hreq. destruct (net a) as [e|e|resp]; [done|done|].
    exists resp. split; [done|].
    destruct (Z.ltb_spec (StatusCode resp) 200); [done|].
    destruct (Z.geb_spec (StatusCode resp) 300); [done|].
    split; lia.
Qed.

(** X14.  [sendMetadata] returns without error only when the metadata
    endpoint has answered 2xx, and that answer is the one to the last
    attempt it made; the ingest URL had parsed and passed the scheme
    check. *)
Theorem metadata_success_is_a_2xx os net m metadata t :
  sendMetadata os net m metadata = (None, t) ->
  exists resp parsed,
    net (attempts t - 1)%nat = DoReturns resp
    /\ (200 <= StatusCode resp < 300)%Z
    /\ (1 <= attempts t)%nat
    /\ url_Parse os (ingestURL m) = inr parsed
    /\ plainRemote parsed = false.
Proof.
  unfold sendMetadata. destruct (url_Parse os (ingestURL m)) as [err|parsed]; [done|].
  destruct (plainRemote parsed) eqn:Hplain; [done|].
  intros H. destruct (sendLoop_None net m _ 0 None t H) as (resp & Hnet & Hcode & Hn).
  exists resp, parsed. split; [done|]. split; [done|]. by split.
Qed.

Lemma metadata_success_is_a_2xx_witness :
  exists resp,
    failsFirst 1 503 "" (2 - 1)%nat = DoReturns resp /\ (200 <= StatusCode resp < 300)%Z.
Proof.
  destruct (metadata_success_is_a_2xx testOS (failsFirst 1 503 "")
              (newMetadataClient "https://api.pprofio.com" "test-key") ∅
              [Attempt 0; Sleep (metadataBackoff 0); Attempt 1] eq_refl)
    as (resp & parsed & H1 & H2 & _).
  exists resp. split; [exact H1|exact H2].
Defined.

(** Up to the 37th attempt the sleep of the metadata loop is 2^attempt x
    100ms. *)
Lemma metadataBackoff_exact k :
  (0 <= k <= 36)%Z -> metadataBackoff k = (2 ^ k * 100 * Millisecond)%Z.
Proof.
  intros Hk. unfold metadataBackoff, backoffMs, wrap64, Millisecond.
  rewrite Z.shiftl_1_l.
  assert (Hp : (1 <= 2 ^ k <= 2 ^ 36)%Z).
  { split.
    - assert (0 < 2 ^ k)%Z by (apply Z.pow_pos_nonneg; lia). lia.
    - apply Z.pow_le_mono_r; lia. }
  change (2 ^ 36)%Z with 68719476736%Z in Hp.
  change (2 ^ 63)%Z with 9223372036854775808%Z.
  change (2 ^ 64)%Z with 18446744073709551616%Z.
  rewrite (Z.mod_small (2 ^ k + _)) by lia.
  replace (2 ^ k + 9223372036854775808 - 9223372036854775808)%Z with (2 ^ k)%Z by lia.
  rewrite (Z.mod_small (2 ^ k * 100 + _)) by lia.
  replace (2 ^ k * 100 + 9223372036854775808 - 9223372036854775808)%Z
    with (2 ^ k * 100)%Z by lia.
  rewrite Z.mod_small by lia. lia.
Qed.

Lemma sendLoop_all_fail_sleeps net m n a last :
  (forall k, (a <= k < a + n)%nat -> sendRequest (net k) <> None) ->
  sleeps (sendLoop net m n (Z.of_nat a) last).2
    = map (fun k => metadataBackoff (Z.of_nat (a + k))) (seq 0 n).
Proof.
  revert a last. induction n as [|n IH]; intros a last Hfail; [done|].
  destruct (sendRequest (net a)) as [err|] eqn:E; [|by destruct (Hfail a); [lia|]].
  rewrite (sendLoop_failure net m n a last err E). simpl.
  rewrite IH by (intros k Hk; apply Hfail; lia).
  rewrite Nat.add_0_r. f_equal.
  rewrite <- seq_shift, map_map. apply map_ext. intros k. do 2 f_equal. lia.
Qed.

(** X15.  When every attempt of a metadata delivery fails, and the budget is
    at most 37, the sleeps are 100ms, 200ms, 400ms and so on, doubling:
    2^attempt x 100ms after attempt number [attempt], counted from 0.  The
    first wait is thus as long as the one of the upload loop, but comes one
    attempt earlier, and there is one after the last attempt. *)
Theorem metadata_backoff_doubles os net m metadata parsed :
  url_Parse os (ingestURL m) = inr parsed ->
  plainRemote parsed = false ->
  (retries m <= 37)%Z ->
  (forall k, (k < Z.to_nat (retries m))%nat -> sendRequest (net k) <> None) ->
  sleeps (sendMetadata os net m metadata).2
    = map (fun k => (2 ^ Z.of_nat k * 100 * Millisecond)%Z) (seq 0 (Z.to_nat (retries m))).
Proof.
  intros Hparse Hplain Hbudget Hfail. unfold sendMetadata. rewrite Hparse, Hplain.
  pose proof (sendLoop_all_fail_sleeps net m (Z.to_nat (retries m)) 0 None) as H.
  change (Z.of_nat 0) with 0%Z in H. rewrite H by (intros k Hk; apply Hfail; lia).
  apply map_ext_in. intros k Hk. apply in_seq in Hk. simpl.
  apply metadataBackoff_exact. lia.
Qed.

Lemma metadata_backoff_doubles_witness :
  sleeps (sendMetadata testOS (always 500 "")
            (newMetadataClient "https://api.pprofio.com" "test-key") ∅).2
    = map (fun k => (2 ^ Z.of_nat k * 100 * Millisecond)%Z) (seq 0 (Z.to_nat 3)).
Proof.
  apply (metadata_backoff_doubles testOS (always 500 "")
           (newMetadataClient "https://api.pprofio.com" "test-key") ∅
           {| Scheme := "https"; Host := "localhost" |}).
  - reflexivity.
  - reflexivity.
  - simpl. lia.
  - intros k _. discriminate.
Defined.

(** ** Handing a profile over, continued *)

Lemma records_sendLoop net m r a last : records (sendLoop net m r a last).2 = [].
Proof.
  revert a last. induction r as [|r IH]; intros a last; [done|].
  simpl. destruct (sendRequest (net (Z.to_nat a))) as [err|]; [|done].
  specialize (IH (a + 1)%Z (Some err)).
  by destruct (sendLoop net m r (a + 1) (Some err)).
Qed.

Lemma records_sendMetadata os net m metadata : records (sendMetadata os net m metadata).2 = [].
Proof.
  unfold sendMetadata. destruct (url_Parse os (ingestURL m)); [done|].
  destruct (plainRemote _); [done|]. apply records_sendLoop.
Qed.

Lemma records_nil_no_send (t : trace) m : records t = [] -> SendMetadata m ∉ t.
Proof.
  induction t as [|ev t IH]; intros H; [apply not_elem_of_nil|].
  destruct ev; simpl in H; try discriminate;
    (intros [E|E]%elem_of_cons; [done|by apply IH]).
Qed.

Lemma records_nil_no_print (t : trace) m : records t = [] -> PrintMetadata m ∉ t.
Proof.
  induction t as [|ev t IH]; intros H; [apply not_elem_of_nil|].
  destruct ev; simpl in H; try discriminate;
    (intros [E|E]%elem_of_cons; [done|by apply IH]).
Qed.

(** X16.  One call of [uploadProfile] hands at most one metadata record to
    the dispatcher or to stdout, and it hands one only after the storage
    backend has returned a locator and that locator has been decoded: the
    record is then the one built from the decoded response. *)
Theorem uploadProfile_hands_over_once os uploadNet metadataNet now p filePath kind :
  (length (records (uploadProfile os uploadNet metadataNet now p filePath kind).2) <= 1)%nat
  /\ (records (uploadProfile os uploadNet metadataNet now p filePath kind).2 <> [] ->
        exists storage locator t0 response,
          Config.Storage (config p) = Some storage
          /\ Storage_Upload os uploadNet storage filePath = (Ok locator, t0)
          /\ json_Unmarshal os locator = inr response
          /\ records (uploadProfile os uploadNet metadataNet now p filePath kind).2
             = [metadataRecord now p response]).
Proof.
  unfold uploadProfile.
  destruct (Config.Storage (config p)) as [storage|]; [|simpl; split; [lia|done]].
  pose proof (records_Storage_Upload os uploadNet storage filePath) as Ht0.
  destruct (Storage_Upload os uploadNet storage filePath) as [[locator|err|reason] t0] eqn:Hup;
    simpl in Ht0; [|simpl; rewrite Ht0; split; [simpl; lia|done]..].
  destruct (json_Unmarshal os locator) as [err|response] eqn:Hjson;
    [simpl; rewrite Ht0; split; [simpl; lia|done]|].
  assert (Hex : exists storage' locator' t0' response',
            Some storage = Some storage'
            /\ Storage_Upload os uploadNet storage' filePath = (Ok locator', t0')
            /\ json_Unmarshal os locator' = inr response'
            /\ [metadataRecord now p response] = [metadataRecord now p response']).
  { by exists storage, locator, t0, response. }
  destruct (Config.OutputToStdout (config p)).
  - clear Hup. destruct storage; simpl; rewrite ?records_app, Ht0; simpl;
      (split; [lia|]); done.
  - unfold Profiler_sendMetadata.
    pose proof (records_sendMetadata os metadataNet
                  (newMetadataClient (Config.IngestURL (config p)) (Config.APIKey (config p)))
                  (metadataRecord now p response)) as Hm.
    destruct (sendMetadata _ _ _ _) as [[err|] t']; simpl in *;
      rewrite records_app, Ht0; simpl; rewrite Hm; (split; [simpl; lia|]); done.
Qed.

Lemma uploadProfile_hands_over_once_witness :
  (length (records (uploadProfile testOS (always 200 "{}") (always 200 "") 1609459200
                      (testProfiler (Some (HTTP (testStorage 3)))) "cpu.pprof" "cpu").2)
     <= 1)%nat.
Proof.
  apply (proj1 (uploadProfile_hands_over_once testOS (always 200 "{}") (always 200 "")
                  1609459200 (testProfiler (Some (HTTP (testStorage 3)))) "cpu.pprof" "cpu")).
Defined.

(** X17.  In the metadata record the user's tags win: every configured tag
    is in the record with its own value, also under one of the names
    profile_id, profile_url, service, type and timestamp, whose built-in
    value it then replaces; a built-in key no tag uses keeps its value, and
    the record has no other keys. *)
Theorem metadata_tags_override now p response :
  (forall k v, Config.Tags (config p) !! k = Some v ->
     metadataRecord now p response !! k = Some v)
  /\ (Config.Tags (config p) !! "service" = None ->
        metadataRecord now p response !! "service" = Some (Config.ServiceName (config p)))
  /\ (Config.Tags (config p) !! "timestamp" = None ->
        metadataRecord now p response !! "timestamp" = Some (itoa now))
  /\ (Config.Tags (config p) !! "profile_id" = None ->
        metadataRecord now p response !! "profile_id" = Some (ProfileID response))
  /\ (Config.Tags (config p) !! "profile_url" = None ->
        metadataRecord now p response !! "profile_url" = Some (ProfileURL response))
  /\ (Config.Tags (config p) !! "type" = None ->
        metadataRecord now p response !! "type" = Some (Type_ response))
  /\ dom (metadataRecord now p response)
     = dom (Config.Tags (config p))
       ∪ {[ "profile_id"; "profile_url"; "service"; "type"; "timestamp" ]}.
Proof.
  unfold metadataRecord. rewrite addTags_union.
  split; [|split; [|split; [|split; [|split; [|split]]]]].
  - intros k v H. by apply lookup_union_Some_l.
  - intros H. rewrite lookup_union_r by done. by simplify_map_eq.
  - intros H. rewrite lookup_union_r by done. by simplify_map_eq.
  - intros H. rewrite lookup_union_r by done. by simplify_map_eq.
  - intros H. rewrite lookup_union_r by done. by simplify_map_eq.
  - intros H. rewrite lookup_union_r by done. by simplify_map_eq.
  - rewrite dom_union_L, !dom_insert_L, dom_empty_L. set_solver.
Qed.

Lemma metadata_tags_override_witness :
  metadataRecord 1609459200 (testProfiler (Some Stdout))
    {| ProfileID := "abc123"; ProfileURL := "https://storage.pprofio.com/abc123";
       Type_ := "cpu" |} !! "env" = Some "test".
Proof.
  apply (proj1 (metadata_tags_override 1609459200 (testProfiler (Some Stdout))
                  {| ProfileID := "abc123"; ProfileURL := "https://storage.pprofio.com/abc123";
                     Type_ := "cpu" |})).
  reflexivity.
Defined.

(** X18.  The two ways out for a metadata record exclude each other.  With
    [OutputToStdout] set nothing is handed to the metadata dispatcher, and
    the outcome does not depend on the metadata endpoint; without it nothing
    is printed.  And with [OutputToStdout] set on a storage that is not the
    stdout storage, the record goes nowhere, while the call still reports
    success whenever the upload and the decoding went through. *)
Theorem metadata_paths_exclusive os uploadNet metadataNet now p filePath kind :
  (Config.OutputToStdout (config p) = true ->
     (forall m, SendMetadata m ∉ (uploadProfile os uploadNet metadataNet now p filePath kind).2)
     /\ (forall metadataNet',
           uploadProfile os uploadNet metadataNet' now p filePath kind
           = uploadProfile os uploadNet metadataNet now p filePath kind)
     /\ (Config.Storage (config p) <> Some Stdout ->
           records (uploadProfile os uploadNet metadataNet now p filePath kind).2 = []))
  /\ (Config.OutputToStdout (config p) = false ->
        forall m, PrintMetadata m ∉ (uploadProfile os uploadNet metadataNet now p filePath kind).2).
Proof.
  unfold uploadProfile. split.
  - intros Hmode. rewrite Hmode. split; [|split; [done|]].
    + intros m.
      destruct (Config.Storage (config p)) as [storage|]; [|apply not_elem_of_nil].
      pose proof (records_Storage_Upload os uploadNet storage filePath) as Ht0.
      destruct (Storage_Upload os uploadNet storage filePath) as [[locator|err|reason] t0];
        simpl in Ht0; [|by apply records_nil_no_send..].
      destruct (json_Unmarshal os locator); [by apply records_nil_no_send|].
      destruct storage; simpl; try (by apply records_nil_no_send).
      rewrite elem_of_app, list_elem_of_singleton.
      intros [H|H]; [by apply (records_nil_no_send t0 m Ht0)|done].
    + intros Hstorage.
      destruct (Config.Storage (config p)) as [storage|]; [|done].
      pose proof (records_Storage_Upload os uploadNet storage filePath) as Ht0.
      destruct (Storage_Upload os uploadNet storage filePath) as [[locator|err|reason] t0];
        simpl in Ht0; [|done..].
      destruct (json_Unmarshal os locator); [done|].
      destruct storage; simpl; done.
  - intros Hmode m. rewrite Hmode.
    destruct (Config.Storage (config p)) as [storage|]; [|apply not_elem_of_nil].
    pose proof (records_Storage_Upload os uploadNet storage filePath) as Ht0.
    destruct (Storage_Upload os uploadNet storage filePath) as [[locator|err|reason] t0];
      simpl in Ht0; [|by apply records_nil_no_print..].
    destruct (json_Unmarshal os locator) as [err|response];
      [by apply records_nil_no_print|].
    unfold Profiler_sendMetadata.
    pose proof (records_sendMetadata os metadataNet
                  (newMetadataClient (Config.IngestURL (config p)) (Config.APIKey (config p)))
                  (metadataRecord now p response)) as Hm.
    destruct (sendMetadata _ _ _ _) as [[err|] t']; simpl in *;
      rewrite elem_of_app, elem_of_cons;
      (intros [H|[H|H]]; [by apply (records_nil_no_print t0 m Ht0)|done
                         |by apply (records_nil_no_print t' m Hm)]).
Qed.

Lemma metadata_paths_exclusive_witness :
  Config.OutputToStdout (config (testProfiler (Some (HTTP (testStorage 3))))) = false
  /\ PrintMetadata ∅ ∉
       (uploadProfile testOS (always 200 "{}") (always 200 "") 1609459200
          (testProfiler (Some (HTTP (testStorage 3)))) "cpu.pprof" "cpu").2.
Proof.
  split; [reflexivity|].
  apply (proj2 (metadata_paths_exclusive testOS (always 200 "{}") (always 200 "")
                  1609459200 (testProfiler (Some (HTTP (testStorage 3)))) "cpu.pprof" "cpu")).
  reflexivity.
Defined.

(** ** The constructor and the lifecycle, continued *)

Lemma newProfiler_Ok c rt p rt' :
  newProfiler c rt = (Ok p, rt') -> Config.validate c = (config p, None).
Proof.
  unfold newProfiler. destruct (Config.validate c) as [c' [err|]]; [done|].
  simpl. by intros [= <- <-].
Qed.

Lemma newProfiler_accepts c rt :
  (Config.validate c).2 = None -> exists p rt', newProfiler c rt = (Ok p, rt').
Proof.
  unfold newProfiler. destruct (Config.validate c) as [c' [err|]]; [done|].
  intros _. by eexists _, _.
Qed.

(** X19.  Outside the stdout mode [New] builds a profiler exactly when API
    key, ingest URL and service name are given; a storage need not be: when
    none is configured [New] supplies the HTTP storage of [NewHTTPStorage]
    for the ingest URL followed by "/upload", and a configured storage is
    kept as it is. *)
Theorem New_supplies_storage c rt :
  Config.OutputToStdout c = false ->
  ((exists p rt', New c rt = (Ok p, rt')) <->
     Config.APIKey c <> "" /\ Config.IngestURL c <> "" /\ Config.ServiceName c <> "")
  /\ (forall p rt', New c rt = (Ok p, rt') ->
        Config.Storage (config p) =
          match Config.Storage c with
          | Some storage => Some storage
          | None => Some (HTTP (NewHTTPStorage (String.append (Config.IngestURL c) "/upload")
                                  (Config.APIKey c) (Config.Env c)))
          end).
Proof.
  intros Hmode. unfold New. rewrite Hmode. split; [split|].
  - intros (p & rt' & H). apply newProfiler_Ok in H.
    assert (Hok : (Config.validate
                     {| Config.APIKey := Config.APIKey c;
                        Config.IngestURL := Config.IngestURL c;
                        Config.SampleRate := _; Config.ProfileDuration := _;
                        Config.Storage := _; Config.ServiceName := Config.ServiceName c;
                        Config.Tags := _; Config.MemProfileRate := _;
                        Config.MutexFraction := _; Config.BlockProfileRate := _;
                        Config.EnableCPU := _; Config.EnableMemory := _;
                        Config.EnableGoroutine := _; Config.EnableMutex := _;
                        Config.EnableBlock := _; Config.EnableCustom := _;
                        Config.OutputToStdout := _; Config.Env := _ |}).2 = None)
      by (by rewrite H).
    apply validate_ok_iff in Hok as (HKey & HURL & _ & HName). done.
  - intros (HKey & HURL & HName). apply newProfiler_accepts, validate_ok_iff. simpl.
    rewrite !(bool_decide_eq_true_2 (_ <> "")) by done.
    split; [done|]. split; [done|]. split; [|done].
    destruct (Config.Storage c); simpl; done.
  - intros p rt' H. apply newProfiler_Ok in H.
    assert (Hok : (Config.validate
                     {| Config.APIKey := Config.APIKey c;
                        Config.IngestURL := Config.IngestURL c;
                        Config.SampleRate := _; Config.ProfileDuration := _;
                        Config.Storage := _; Config.ServiceName := Config.ServiceName c;
                        Config.Tags := _; Config.MemProfileRate := _;
                        Config.MutexFraction := _; Config.BlockProfileRate := _;
                        Config.EnableCPU := _; Config.EnableMemory := _;
                        Config.EnableGoroutine := _; Config.EnableMutex := _;
                        Config.EnableBlock := _; Config.EnableCustom := _;
                        Config.OutputToStdout := _; Config.Env := _ |}).2 = None)
      by (by rewrite H).
    apply validate_ok_iff in Hok as (HKey & HURL & _ & HName). simpl in HKey, HURL.
    apply validate_completes in H as (_ & _ & _ & _ & _ & _ & _ & _ & _ & Hst & _).
    rewrite Hst. simpl.
    rewrite !(bool_decide_eq_true_2 (_ <> "")) by done.
    destruct (Config.Storage c); simpl; done.
Qed.

Lemma New_supplies_storage_witness :
  exists p rt', New (testConfig None) freshRuntime = (Ok p, rt').
Proof.
  apply (proj1 (New_supplies_storage (testConfig None) freshRuntime eq_refl)).
  split; [discriminate|]. split; discriminate.
Defined.

(** X20.  A second [Start] on a running profiler is refused with "profiler
    already started" and changes neither the profiler nor the process; a
    [Stop] on a profiler that is not running, be it never started or already
    stopped, returns at once and changes nothing either. *)
Theorem lifecycle_misuse_is_harmless p ctx ctx' rt p1 rt1 :
  initialized p = false ->
  start p ctx rt = (None, p1, rt1) ->
  start p1 ctx' rt1 = (Some (errors_New "profiler already started"), p1, rt1)
  /\ stop p rt = Some (p, rt)
  /\ (forall p2 rt2, stop p1 rt1 = Some (p2, rt2) -> stop p2 rt2 = Some (p2, rt2)).
Proof.
  intros Hidle Hstart.
  destruct (start_idle p ctx rt Hidle) as (p1' & rt1' & E & Hi1 & Hs1 & Hc1 & Hch1 & Hg1).
  rewrite Hstart in E. injection E as <- <-.
  split; [by apply start_running|]. split; [by apply stop_idle|].
  intros p2 rt2 Hstop. apply stop_idle.
  unfold stop in Hstop. rewrite Hi1 in Hstop. simpl in Hstop.
  destruct (wg_Wait p1 _); [|done]. by injection Hstop as <- <-.
Qed.

Lemma lifecycle_misuse_is_harmless_witness :
  stop (testProfiler (Some Stdout)) testRuntime = Some (testProfiler (Some Stdout), testRuntime).
Proof.
  destruct (lifecycle_misuse_is_harmless (testProfiler (Some Stdout)) 0 1 testRuntime
              _ _ eq_refl eq_refl) as (_ & H & _).
  exact H.
Defined.

(** X21.  While the profiler runs, the runtime's memory rate, mutex fraction
    and block rate are the configured ones for the kinds that are enabled
    and the previous ones for the others.  When [Stop] returns, the memory
    rate is back at what it was before [Start], and the mutex fraction and
    the block rate are 0, whatever they were before [Start]. *)
Theorem stop_restores_knobs p ctx rt p1 rt1 p2 rt2 :
  initialized p = false ->
  start p ctx rt = (None, p1, rt1) ->
  stop p1 rt1 = Some (p2, rt2) ->
  runtime_MemProfileRate rt1 =
    (if Config.EnableMemory (config p) then Config.MemProfileRate (config p)
     else runtime_MemProfileRate rt)
  /\ mutexProfileFraction rt1 =
       (if Config.EnableMutex (config p) then Config.MutexFraction (config p)
        else mutexProfileFraction rt)
  /\ blockProfileRate rt1 =
       (if Config.EnableBlock (config p) then Config.BlockProfileRate (config p)
        else blockProfileRate rt)
  /\ runtime_MemProfileRate rt2 = runtime_MemProfileRate rt
  /\ mutexProfileFraction rt2 = 0%Z
  /\ blockProfileRate rt2 = 0%Z.
Proof.
  intros Hidle Hstart Hstop. unfold start in Hstart. rewrite Hidle in Hstart.
  injection Hstart as <- <-. unfold stop in Hstop. simpl in Hstop.
  destruct (wg_Wait _ _); [|done]. injection Hstop as <- <-. simpl.
  repeat split.
Qed.

Lemma stop_restores_knobs_witness :
  exists p1 rt1 p2 rt2,
    start (testProfiler (Some Stdout)) 0 testRuntime = (None, p1, rt1)
    /\ stop p1 rt1 = Some (p2, rt2)
    /\ runtime_MemProfileRate rt1 = 4096%Z
    /\ runtime_MemProfileRate rt2 = (512 * 1024)%Z.
Proof.
  eexists _, _, _, _. split; [reflexivity|]. split; [reflexivity|].
  destruct (stop_restores_knobs (testProfiler (Some Stdout)) 0 testRuntime
              _ _ _ _ eq_refl eq_refl eq_refl) as (H1 & _ & _ & H2 & _).
  split; [exact H1|exact H2].
Defined.




(** ** Spans and the collection loop *)

Lemma tagPairs_app n (l1 l2 : list string) (m : gmap string string) :
  length l1 = (2 * n)%nat -> tagPairs (l1 ++ l2) m = tagPairs l2 (tagPairs l1 m).
Proof.
  revert l1 m. induction n as [|n IH]; intros l1 m Hlen.
  - by destruct l1.
  - destruct l1 as [|k [|v l1]]; simpl in Hlen; [lia|lia|].
    simpl. apply IH. lia.
Qed.

(** X24.  [StartSpan] reads its tags in pairs: a key left without a value at
    the end is dropped, and a pair at the end sets its key, whatever value an
    earlier pair gave it. *)
Theorem StartSpan_reads_pairs now prof name (tags : list string) key value :
  Nat.even (length tags) = true ->
  SpanTags (StartSpan now prof name (tags ++ [key])).1
    = SpanTags (StartSpan now prof name tags).1
  /\ SpanTags (StartSpan now prof name (tags ++ [key; value])).1 !! key = Some value.
Proof.
  intros Heven. apply Nat.even_spec in Heven as [n Hn]. simpl.
  rewrite !(tagPairs_app n) by done. simpl. split; [done|].
  apply lookup_insert_eq.
Qed.

Lemma StartSpan_reads_pairs_witness :
  SpanTags (StartSpan 1 None "test-operation" (["endpoint"; "/api/test"] ++ ["user"])).1
    = SpanTags (StartSpan 1 None "test-operation" ["endpoint"; "/api/test"]).1.
Proof.
  apply (proj1 (StartSpan_reads_pairs 1 None "test-operation" ["endpoint"; "/api/test"]
                  "user" "" eq_refl)).
Defined.

Lemma fold_trySend (sent queue : list Span) :
  (length queue <= spanChCapacity)%nat ->
  fold_left trySend sent queue = take spanChCapacity (queue ++ sent).
Proof.
  revert queue. induction sent as [|span sent IH]; intros queue Hlen.
  - simpl. rewrite app_nil_r. by rewrite take_ge.
  - simpl. unfold trySend at 2.
    destruct (Nat.ltb_spec (length queue) spanChCapacity) as [Hlt|Hge].
    + rewrite IH by (rewrite length_app; simpl; lia).
      by rewrite <- app_assoc.
    + rewrite IH by done. rewrite !take_app_le by lia. done.
Qed.

(** X25.  The span queue never grows beyond its 1000 places and never makes
    a sender wait: of the spans sent to a queue nobody reads from, the first
    1000 are kept, in the order sent, and every later one is dropped. *)
Theorem span_queue_keeps_first (sent : list Span) :
  fold_left trySend sent [] = take spanChCapacity sent
  /\ (length (fold_left trySend sent []) <= spanChCapacity)%nat.
Proof.
  rewrite fold_trySend by (simpl; lia). simpl. split; [done|].
  rewrite length_take. lia.
Qed.

Lemma collectLoop_ticks collect n k c rest :
  (forall j reason, (k <= j < k + n)%nat -> (collect j).1 <> Panic reason) ->
  c = caseStop \/ c = caseCtxDone ->
  collectLoop collect k (replicate n caseTick ++ c :: rest) =
    (LoopReturned, (k + n)%nat, concat (map (fun j => (collect j).2) (seq k n))).
Proof.
  intros Hok Hc. revert k Hok. induction n as [|n IH]; intros k Hok.
  - simpl. rewrite Nat.add_0_r. by destruct Hc as [-> | ->].
  - simpl. pose proof (Hok k) as Hk.
    destruct (collect k) as [[[]|e|reason] t] eqn:E; simpl in *;
      try (by destruct (Hk reason); [lia|]);
      (rewrite IH by (intros j r Hj; apply Hok; lia));
      by replace (S k + n)%nat with (k + S n)%nat by lia.
Qed.

(** X26.  A collection task collects once when it is launched and once per
    tick until the stop signal or the end of its context, and a collection
    that returns an error does not end it: after [n] ticks and then a stop,
    it has made [n + 1] collections, whatever each of them returned, and has
    returned itself. *)
Theorem collectProfiles_survives_errors collect (n : nat) c rest :
  (forall j reason, (j <= n)%nat -> (collect j).1 <> Panic reason) ->
  c = caseStop \/ c = caseCtxDone ->
  collectProfiles_run collect (replicate n caseTick ++ c :: rest) =
    (LoopReturned, S n, concat (map (fun j => (collect j).2) (seq 0 (S n)))).
Proof.
  intros Hok Hc. unfold collectProfiles_run.
  pose proof (Hok 0%nat) as H0.
  rewrite (collectLoop_ticks collect n 1 c rest) by (done || (intros j r Hj; apply Hok; lia)).
  destruct (collect 0%nat) as [[[]|e|reason] t] eqn:E; simpl in *;
    try (by destruct (H0 reason); [lia|]); rewrite E; reflexivity.
Qed.

Lemma collectProfiles_survives_errors_witness :
  collectProfiles_run (fun _ => (Err (errors_New "failed to upload profile"), [Attempt 0]))
    (replicate 2 caseTick ++ caseStop :: [caseTick])
  = (LoopReturned, 3%nat, [Attempt 0; Attempt 0; Attempt 0]).
Proof.
  apply (collectProfiles_survives_errors
           (fun _ => (Err (errors_New "failed to upload profile"), [Attempt 0])) 2 caseStop).
  - intros j reason _. discriminate.
  - left. reflexivity.
Defined.
